(** * scanner.py: capture-and-assemble pipeline

    A shallow embedding of [src/scanner.py].  The script shells out to four
    external programs (scanimage, tesseract, convert, gs); everything it
    does itself is string and path arithmetic followed by a fixed sequence
    of effects.  The embedding has three layers:

    - [PyStr]   : the handful of [str] methods the script uses;
    - [Pathlib] : [pathlib.PurePosixPath] parsing, joining, [with_suffix];
    - [Scanner] : the script, in a state-and-exception monad whose state is
                  a file system together with the trace of effects performed
                  so far.  The environment (search path, standard input,
                  external programs, failing system calls) is an explicit
                  record of oracles. *)

From Stdlib Require Import String Ascii List ZArith Lia Bool Arith.
From Stdlib Require Import DecimalString.
Import ListNotations.
Local Open Scope string_scope.
Local Open Scope list_scope.

(* ===================================================================== *)
(** ** Python strings *)
(* ===================================================================== *)

Module PyStr.

(** [s.endswith(suf)]: some tail of [s] is [suf]. *)
Fixpoint endswith (s suf : string) : bool :=
  if String.eqb s suf then true
  else match s with
       | EmptyString => false
       | String _ s' => endswith s' suf
       end.

(** [s.startswith(pre)] is [String.prefix pre s]. *)
Definition startswith (s pre : string) : bool := String.prefix pre s.

(** [c in s] for a one-character [c]. *)
Fixpoint contains (c : ascii) (s : string) : bool :=
  match s with
  | EmptyString => false
  | String a s' => Ascii.eqb a c || contains c s'
  end.

(** [s.rfind(c)] for a one-character [c]; Python's [-1] is [None]. *)
Fixpoint rfind (c : ascii) (s : string) : option nat :=
  match s with
  | EmptyString => None
  | String a s' =>
      match rfind c s' with
      | Some i => Some (S i)
      | None => if Ascii.eqb a c then Some 0 else None
      end
  end.

(** [s.lstrip(c)]. *)
Fixpoint lstrip (c : ascii) (s : string) : string :=
  match s with
  | String a s' => if Ascii.eqb a c then lstrip c s' else s
  | EmptyString => EmptyString
  end.

(** [s.split(c)]: never empty, [''.split('/') == ['']]. *)
Fixpoint split (c : ascii) (s : string) : list string :=
  match s with
  | EmptyString => [EmptyString]
  | String a s' =>
      if Ascii.eqb a c then EmptyString :: split c s'
      else match split c s' with
           | w :: ws => String a w :: ws
           | [] => [String a EmptyString]
           end
  end.

(** [sep.join(l)]. *)
Fixpoint join (sep : string) (l : list string) : string :=
  match l with
  | [] => EmptyString
  | [x] => x
  | x :: xs => (x ++ sep ++ join sep xs)%string
  end.

(** [s[i:]] and [s[:i]] for [0 <= i <= len(s)]. *)
Definition slice_from (i : nat) (s : string) : string :=
  substring i (String.length s - i) s.
Definition slice_to (i : nat) (s : string) : string :=
  substring 0 i s.

(** [str(n)] for an [int]. *)
Definition str_int (z : Z) : string := NilZero.string_of_int (Z.to_int z).

(** [range(n)] for an [int] [n]: empty when [n <= 0]. *)
Definition range (n : Z) : list Z := map Z.of_nat (seq 0 (Z.to_nat n)).

(** [f"{x}"] for an optional string: [None] renders as the word. *)
Definition format_opt (x : option string) : string :=
  match x with
  | Some s => s
  | None => "None"
  end.

End PyStr.

(* ===================================================================== *)
(** ** pathlib (POSIX flavour) *)
(* ===================================================================== *)

Module Pathlib.
Import PyStr.

(** A parsed path: the root (empty, one slash or two slashes) and the
    components below it.  pathlib's [parts] is the root, when there is one,
    followed by [comps]. *)
Record Path : Type := mkPath { root : string; comps : list string }.

Definition sep : ascii := "/"%char.

(** [_PosixFlavour.splitroot]. *)
Definition splitroot (part : string) : string * string :=
  match part with
  | String a _ =>
      if Ascii.eqb a sep then
        let stripped := lstrip sep part in
        if Nat.eqb (String.length part - String.length stripped) 2
        then ("//", stripped)
        else ("/", stripped)
      else ("", part)
  | EmptyString => ("", part)
  end.

Definition keep_comp (x : string) : bool :=
  negb (String.eqb x "") && negb (String.eqb x ".").

(** [Path(s)]: [parse_parts] on the single argument [s]. *)
Definition of_str (s : string) : Path :=
  let (r, rel) := splitroot s in
  mkPath r (filter keep_comp (split sep rel)).

(** [p / q] ([join_parsed_parts]): an absolute right operand wins. *)
Definition join_path (p q : Path) : Path :=
  if negb (String.eqb (root q) "") then q
  else mkPath (root p) (comps p ++ comps q).

(** [str(p)]. *)
Definition str (p : Path) : string :=
  match root p, comps p with
  | EmptyString, [] => "."
  | r, cs => (r ++ join "/" cs)%string
  end.

(** [p.name]: the last component, empty when there is none. *)
Definition name (p : Path) : string := last (comps p) "".

(** [p.suffix]. *)
Definition suffix (p : Path) : string :=
  let n := name p in
  match rfind "." n with
  | Some i => if (0 <? i)%nat && (i <? String.length n - 1)%nat then slice_from i n else ""
  | None => ""
  end.

(** [p.with_suffix(suf)]; [None] stands for the [ValueError] pathlib raises
    on an invalid suffix or on a path with an empty name. *)
Definition with_suffix (p : Path) (suf : string) : option Path :=
  if contains sep suf then None
  else if (negb (String.eqb suf "") && negb (startswith suf ".")) || String.eqb suf "." then None
  else
    let n := name p in
    if String.eqb n "" then None
    else
      let old := suffix p in
      let n' := if String.eqb old "" then (n ++ suf)%string
                else (slice_to (String.length n - String.length old) n ++ suf)%string in
      Some (mkPath (root p) (removelast (comps p) ++ [n'])).

Definition list_eqb (l1 l2 : list string) : bool :=
  if list_eq_dec string_dec l1 l2 then true else false.

Definition eqb (p q : Path) : bool :=
  String.eqb (root p) (root q) && list_eqb (comps p) (comps q).

(** [q] lies strictly below the directory [d]. *)
Definition inside (d q : Path) : Prop :=
  root q = root d /\ exists rest, rest <> [] /\ comps q = comps d ++ rest.

End Pathlib.

(* ===================================================================== *)
(** ** The script *)
(* ===================================================================== *)

Module Scanner.
Import PyStr Pathlib.

(** *** Effects *)

(** The exceptions ([Exception] subclasses) that can reach the script. *)
Inductive Exn : Type :=
| FileNotFoundError (what : string)
| SameFileError (what : string)
| OSError (what : string)
| EOFError
| ValueError (what : string)
| IndexError.

(** How a call ends: it returns, it raises, or [sys.exit] unwinds the
    process ([SystemExit] is not an [Exception]). *)
Inductive Outcome (A : Type) : Type :=
| Ret (a : A)
| Raise (e : Exn)
| SysExit (code : Z).
Arguments Ret {A} a.
Arguments Raise {A} e.
Arguments SysExit {A} code.

(** An element of a command line: the script mixes [str] and [Path]
    objects in the lists it hands to [subprocess.run]. *)
Inductive Arg : Type :=
| AStr (s : string)
| APath (p : Path).

Definition str_arg (a : Arg) : string :=
  match a with
  | AStr s => s
  | APath p => str p
  end.

(** What the script does to the world, in the order it does it. *)
Inductive Event : Type :=
| EvLogError (msg : string)                        (* logger.error *)
| EvLogException (e : Exn)                         (* record written by logger.catch *)
| EvMkdtemp (d : string)                           (* TemporaryDirectory().__enter__ *)
| EvCleanup (d : string)                           (* TemporaryDirectory().__exit__ *)
| EvInput (prompt : string)                        (* input(prompt) *)
| EvPrint (s : string)                             (* print(str) *)
| EvPrintArgs (l : list Arg)                       (* print(list) *)
| EvOpenW (p : Path)                               (* open(p, "w") *)
| EvRun (argv : list Arg) (stdout : option Path)   (* subprocess.run *)
| EvCopy (src dst : Path).                         (* shutil.copyfile *)

(** The file system: what is found at a path. *)
Inductive Node : Type :=
| File (content : string)
| Dir.

Definition FS : Type := Path -> option Node.

Definition fs_set (p : Path) (n : Node) (f : FS) : FS :=
  fun q => if Pathlib.eqb q p then Some n else f q.

Definition below (d q : Path) : bool :=
  String.eqb (root q) (root d)
  && (length (comps d) <? length (comps q))%nat
  && list_eqb (firstn (length (comps d)) (comps q)) (comps d).

(** Removing a directory tree. *)
Definition fs_rmtree (d : Path) (f : FS) : FS :=
  fun q => if Pathlib.eqb q d || below d q then None else f q.

(** The environment of one run.
    - [which]: [shutil.which], the resolved executable or [None];
    - [tmp_name]: the directory name [tempfile] picks;
    - [proc]: an external program, given its command line: what it writes
      to its standard output and what it does to the file system;
    - [fault]: a system call failing, decided by what has happened so far
      (standard input closed, disk full, permission denied, ...). *)
Record Env : Type := mkEnv {
  which : string -> option string;
  tmp_name : string;
  proc : list string -> FS -> string * FS;
  fault : list Event -> option Exn
}.

Record World : Type := mkWorld { fs : FS; trace : list Event }.

Definition M (A : Type) : Type := World -> Outcome A * World.

Definition ret {A} (a : A) : M A := fun w => (Ret a, w).

Definition bind {A B} (m : M A) (k : A -> M B) : M B :=
  fun w =>
    match m w with
    | (Ret a, w') => k a w'
    | (Raise e, w') => (Raise e, w')
    | (SysExit c, w') => (SysExit c, w')
    end.

Definition raise {A} (e : Exn) : M A := fun w => (Raise e, w).

Declare Scope py_scope.
Delimit Scope py_scope with py.
Notation "x <- m ;; k" := (bind m (fun x => k))
  (at level 61, m at next level, right associativity) : py_scope.
Notation "m ;; k" := (bind m (fun _ => k))
  (at level 61, right associativity) : py_scope.
Local Open Scope py_scope.

(** [for x in xs: body], the loop's local variables threaded as [st]. *)
Fixpoint for_each {X St : Type} (xs : list X) (body : X -> St -> M St) (st : St) : M St :=
  match xs with
  | [] => ret st
  | x :: xs' => st' <- body x st ;; for_each xs' body st'
  end.

Definition record (ev : Event) (w : World) : World :=
  mkWorld (fs w) (trace w ++ [ev]).

Section Run.
Variable env : Env.

(** A call into the operating system: it fails when the environment says
    so, and otherwise takes effect and is recorded. *)
Definition syscall (ev : Event) (eff : FS -> FS) : M unit :=
  fun w =>
    match fault env (trace w) with
    | Some e => (Raise e, w)
    | None => (Ret tt, mkWorld (eff (fs w)) (trace w ++ [ev]))
    end.

Definition logger_error (msg : string) : M unit :=
  fun w => (Ret tt, record (EvLogError msg) w).

Definition sys_exit {A} (code : Z) : M A := fun w => (SysExit code, w).

(** [shutil.which(cmd)]; it never returns an empty string, so its result
    is true in a condition exactly when it is a path. *)
Definition shutil_which (cmd : string) : M bool :=
  fun w => (Ret (match which env cmd with Some _ => true | None => false end), w).

(** [p.exists()]. *)
Definition path_exists (p : Path) : M bool :=
  fun w => (Ret (match fs w p with Some _ => true | None => false end), w).

Definition input (prompt : string) : M unit := syscall (EvInput prompt) (fun f => f).

Definition print (s : string) : M unit := fun w => (Ret tt, record (EvPrint s) w).

Definition print_args (l : list Arg) : M unit := fun w => (Ret tt, record (EvPrintArgs l) w).

(** [open(p, "w")]: the file is created or truncated. *)
Definition open_w (p : Path) : M unit := syscall (EvOpenW p) (fs_set p (File "")).

(** [subprocess.run(argv, stdout=...)] without [check]: the program's exit
    status is not looked at. *)
Definition subprocess_run (argv : list Arg) (stdout : option Path) : M unit :=
  syscall (EvRun argv stdout)
    (fun f => let (out, f') := proc env (map str_arg argv) f in
              match stdout with
              | Some p => fs_set p (File out) f'
              | None => f'
              end).

(** [shutil.copyfile(src, dst)]: refused when both name the same existing
    file; otherwise the source is opened for reading and its content
    written to the destination. *)
Definition copyfile (src dst : Path) : M unit :=
  fun w =>
    match fs w src with
    | Some n =>
        if Pathlib.eqb src dst then (Raise (SameFileError (str src)), w)
        else match n with
             | File c => syscall (EvCopy src dst) (fs_set dst (File c)) w
             | Dir => (Raise (OSError (str src)), w)
             end
    | None => (Raise (FileNotFoundError (str src)), w)
    end.

(** [with tempfile.TemporaryDirectory() as d: body]: the directory is
    removed however the body ends, and what the body raised goes on. *)
Definition with_TemporaryDirectory {A} (body : string -> M A) : M A :=
  fun w =>
    let d := tmp_name env in
    match syscall (EvMkdtemp d) (fs_set (of_str d) Dir) w with
    | (Ret _, w1) =>
        let (o, w2) := body d w1 in
        (o, mkWorld (fs_rmtree (of_str d) (fs w2)) (trace w2 ++ [EvCleanup d]))
    | (Raise e, w1) => (Raise e, w1)
    | (SysExit c, w1) => (SysExit c, w1)
    end.

Definition path_with_suffix (p : Path) (suf : string) : M Path :=
  match with_suffix p suf with
  | Some q => ret q
  | None => raise (ValueError suf)
  end.

(** [l[i]]. *)
Definition index {A} (l : list A) (i : nat) : M A :=
  match nth_error l i with
  | Some x => ret x
  | None => raise IndexError
  end.

(** *** scanner.py *)

Definition GS_OPTIONS : list string :=
  [ "-sDEVICE=pdfwrite";
    "-dCompatibilityLevel=1.4";
    "-dPDFSETTINGS=/default";
    "-dNOPAUSE";
    "-dQUIET";
    "-dBATCH";
    "-dDetectDuplicateImages";
    "-dCompressFonts=true";
    "-r150" ].

Definition look_for_required_commands : M unit :=
  let fail := false in
  fail <- (found <- shutil_which "convert" ;;
           if negb found
           then logger_error "ImageMagick command convert is not installed" ;; ret true
           else ret fail) ;;
  fail <- (found <- shutil_which "tesseract" ;;
           if negb found
           then logger_error "Tesseract is not installed" ;; ret true
           else ret fail) ;;
  fail <- (found <- shutil_which "scanimage" ;;
           if negb found
           then logger_error "Sane is not installed" ;; ret true
           else ret fail) ;;
  fail <- (found <- shutil_which "gs" ;;
           if negb found
           then logger_error "Ghostscript is not installed" ;; ret true
           else ret fail) ;;
  if fail then sys_exit 1 else ret tt.

Definition tab : string := String (ascii_of_nat 9) EmptyString.

Definition main
    (pages : Z) (output_dir filename : string) (sane_device : option string)
    (sane_resolution sane_contrast sane_brightness : Z) (sane_mode : string)
    (no_ocr : bool) : M unit :=
  let filename :=
    if negb (endswith filename ".pdf") then (filename ++ ".pdf")%string else filename in
  let final_output := join_path (of_str output_dir) (of_str filename) in
  ex <- path_exists final_output ;;
  if ex then
    logger_error ("Output pdf " ++ str final_output ++ " already exists")%string
  else
    with_TemporaryDirectory (fun simple_tempdir =>
      let tempdir := of_str simple_tempdir in
      page_list <-
        for_each (range pages) (fun page page_list =>
          let tpage := (page + 1)%Z in
          input ("Press Enter to scan page " ++ str_int tpage)%string ;;
          let page_name := of_str ("page_" ++ str_int page ++ ".tiff")%string in
          let page_path := join_path tempdir page_name in
          open_w page_path ;;
          subprocess_run
            [ AStr "scanimage";
              AStr "-d";
              AStr (format_opt sane_device);
              AStr "--resolution";
              AStr (str_int sane_resolution);
              AStr "--brightness";
              AStr (str_int sane_brightness);
              AStr "--contrast";
              AStr (str_int sane_contrast);
              AStr "--mode";
              AStr sane_mode;
              AStr "--format";
              AStr "tiff" ]
            (Some page_path) ;;
          let page_list := page_list ++ [page_path] in
          print (tab ++ "Done!")%string ;;
          ret page_list) [] ;;
      pdf_list <-
        for_each page_list (fun page pdf_list =>
          pdf_base <- path_with_suffix page "" ;;
          pdf_out <- path_with_suffix page ".pdf" ;;
          (if negb no_ocr
           then subprocess_run [AStr "tesseract"; APath page; APath pdf_base; AStr "pdf"] None
           else subprocess_run [AStr "convert"; APath page; APath pdf_out] None) ;;
          ret (pdf_list ++ [pdf_out])) [] ;;
      final_pdf <-
        (if Nat.eqb (length pdf_list) 1 then index pdf_list 0
         else
           let final_pdf := join_path tempdir (of_str "final.pdf") in
           let gs_commands :=
             [AStr "gs"] ++ map AStr GS_OPTIONS
             ++ [AStr ("-sOutputFile=" ++ str final_pdf)%string] ++ map APath pdf_list in
           print_args gs_commands ;;
           subprocess_run gs_commands None ;;
           ret final_pdf) ;;
      copyfile final_pdf final_output).

(** [@logger.catch] with loguru's defaults ([reraise=False],
    [default=None]): an exception leaving the decorated function is written
    to the log and swallowed, and the call returns [None]. *)
Definition logger_catch (f : M unit) : M unit :=
  fun w =>
    match f w with
    | (Raise e, w') => (Ret tt, record (EvLogException e) w')
    | r => r
    end.

(** Calling a [click.command] in standalone mode: the callback's return
    value is dropped and the context is closed with [ctx.exit()], that is
    [sys.exit(0)]. *)
Definition click_standalone (callback : M unit) : M unit :=
  callback ;; sys_exit 0.

(** The decorated [main], as [main(auto_envvar_prefix='SCANNER')] runs it
    once the options are resolved. *)
Definition main_command
    (pages : Z) (output_dir filename : string) (sane_device : option string)
    (sane_resolution sane_contrast sane_brightness : Z) (sane_mode : string)
    (no_ocr : bool) : M unit :=
  click_standalone
    (logger_catch
       (main pages output_dir filename sane_device
             sane_resolution sane_contrast sane_brightness sane_mode no_ocr)).

(** The module run as a script: the check at import time, then the
    command. *)
Definition script
    (pages : Z) (output_dir filename : string) (sane_device : option string)
    (sane_resolution sane_contrast sane_brightness : Z) (sane_mode : string)
    (no_ocr : bool) : M unit :=
  look_for_required_commands ;;
  main_command pages output_dir filename sane_device
               sane_resolution sane_contrast sane_brightness sane_mode no_ocr.

End Run.

(** The exit status the operating system sees. *)
Definition exit_status {A} (o : Outcome A) : Z :=
  match o with
  | Ret _ => 0
  | SysExit c => c
  | Raise _ => 1
  end.

End Scanner.

(* ===================================================================== *)
(** ** A simulated machine, for running the script on concrete inputs *)
(* ===================================================================== *)

Module Sim.
Import PyStr Pathlib Scanner.

Definition content_of (f : FS) (p : string) : string :=
  match f (of_str p) with
  | Some (File c) => c
  | _ => ""
  end.

Definition drop_prefix (pre s : string) : option string :=
  if String.prefix pre s
  then Some (substring (String.length pre) (String.length s - String.length pre) s)
  else None.

(** The four programs behaving well: the scanner prints an image, the OCR
    engine and the converter write one PDF, the compositor concatenates its
    inputs into the file named by [-sOutputFile=]. *)
Definition programs (argv : list string) (f : FS) : string * FS :=
  match argv with
  | "scanimage" :: _ => ("TIFF", f)
  | ["tesseract"; page; base; "pdf"] =>
      ("", fs_set (of_str (base ++ ".pdf")%string)
                  (File ("ocr(" ++ content_of f page ++ ")")%string) f)
  | ["convert"; page; out] =>
      ("", fs_set (of_str out) (File ("img(" ++ content_of f page ++ ")")%string) f)
  | "gs" :: rest =>
      let outs := flat_map (fun a => match drop_prefix "-sOutputFile=" a with
                                     | Some o => [o] | None => [] end) rest in
      let ins := filter (fun a => negb (String.prefix "-" a)) rest in
      match outs with
      | o :: _ => ("", fs_set (of_str o)
                         (File (String.concat "" (map (content_of f) ins))) f)
      | [] => ("", f)
      end
  | _ => ("", f)
  end.

(** The same programs, kept from touching anything outside [d]. *)
Definition confined_programs (d : Path) (argv : list string) (f : FS) : string * FS :=
  let (out, f') := programs argv f in
  (out, fun q => if Pathlib.eqb q d || below d q then f' q else f q).

(** Programs that run and produce nothing. *)
Definition broken_programs (argv : list string) (f : FS) : string * FS := ("", f).

Definition all_installed (cmd : string) : option string :=
  Some ("/usr/bin/" ++ cmd)%string.

Definition no_fault (t : list Event) : option Exn := None.

Definition machine : Env := mkEnv all_installed "/tmp/tmpq1w2e3" programs no_fault.

(** Standard input is closed: the first [input()] fails. *)
Definition stdin_closed (t : list Event) : option Exn :=
  match t with
  | [EvMkdtemp _] => Some EOFError
  | _ => None
  end.

Definition machine_no_stdin : Env :=
  mkEnv all_installed "/tmp/tmpq1w2e3" programs stdin_closed.

Definition machine_confined : Env :=
  mkEnv all_installed "/tmp/tmpq1w2e3"
        (confined_programs (of_str "/tmp/tmpq1w2e3")) no_fault.

Definition machine_broken : Env :=
  mkEnv all_installed "/tmp/tmpq1w2e3" broken_programs no_fault.

Definition without (missing : list string) (cmd : string) : option string :=
  if existsb (String.eqb cmd) missing then None else all_installed cmd.

Definition empty_fs : FS := fun _ => None.

Definition boot (f : FS) : World := mkWorld f [].

End Sim.

(* ===================================================================== *)
(** ** Facts about strings and paths *)
(* ===================================================================== *)

Module StrFacts.
Import PyStr Pathlib.

Lemma str_length_app (a b : string) :
  String.length (a ++ b) = String.length a + String.length b.
Proof. induction a as [|c a IH]; simpl; [reflexivity | now rewrite IH]. Qed.

Lemma app_empty_r (s : string) : (s ++ "")%string = s.
Proof. induction s as [|c s IH]; simpl; [reflexivity | now rewrite IH]. Qed.

Lemma endswith_refl (s : string) : endswith s s = true.
Proof. destruct s; cbn [endswith]; now rewrite String.eqb_refl. Qed.

Lemma endswith_app (a suf : string) : endswith (a ++ suf) suf = true.
Proof.
  induction a as [|c a IH]; cbn [append endswith].
  - apply endswith_refl.
  - destruct (String.eqb (String c (a ++ suf)) suf); [reflexivity | exact IH].
Qed.

Lemma contains_app (c : ascii) (a b : string) :
  contains c (a ++ b) = contains c a || contains c b.
Proof.
  induction a as [|x a IH]; simpl; [reflexivity|].
  rewrite IH. now rewrite orb_assoc.
Qed.

Lemma rfind_app_some (c : ascii) (a b : string) (i : nat) :
  rfind c b = Some i -> rfind c (a ++ b) = Some (String.length a + i).
Proof.
  intros Hb. induction a as [|x a IH]; simpl; [exact Hb|].
  now rewrite IH.
Qed.

Lemma substring_all (s : string) : substring 0 (String.length s) s = s.
Proof. induction s as [|c s IH]; simpl; [reflexivity | now rewrite IH]. Qed.

Lemma substring_skip (a b : string) (m : nat) :
  substring (String.length a) m (a ++ b) = substring 0 m b.
Proof. induction a as [|c a IH]; simpl; [reflexivity | exact IH]. Qed.

Lemma substring_take (a b : string) :
  substring 0 (String.length a) (a ++ b) = a.
Proof.
  induction a as [|c a IH]; simpl.
  - now destruct b.
  - now rewrite IH.
Qed.

Lemma split_no_sep (c : ascii) (s : string) :
  contains c s = false -> split c s = [s].
Proof.
  induction s as [|a s IH]; simpl; [reflexivity|].
  intros H. apply orb_false_iff in H as [Ha Hs].
  rewrite Ha, (IH Hs). reflexivity.
Qed.

(** Decimal numerals are made of digits and a sign. *)
Definition numeral_char (c : ascii) : Prop :=
  forall s, contains c (String "-" s) = contains c s
         /\ contains c (String "0" s) = contains c s
         /\ contains c (String "1" s) = contains c s
         /\ contains c (String "2" s) = contains c s
         /\ contains c (String "3" s) = contains c s
         /\ contains c (String "4" s) = contains c s
         /\ contains c (String "5" s) = contains c s
         /\ contains c (String "6" s) = contains c s
         /\ contains c (String "7" s) = contains c s
         /\ contains c (String "8" s) = contains c s
         /\ contains c (String "9" s) = contains c s.

Lemma uint_no_char (c : ascii) (d : Decimal.uint) :
  numeral_char c -> contains c (NilEmpty.string_of_uint d) = false.
Proof.
  intros Hc. induction d; cbn [NilEmpty.string_of_uint]; try reflexivity;
    match goal with |- contains c (String _ ?s) = false =>
      destruct (Hc s) as (? & ? & ? & ? & ? & ? & ? & ? & ? & ? & ?); congruence
    end.
Qed.

Lemma str_int_no_char (c : ascii) (z : Z) :
  numeral_char c -> contains c (str_int z) = false.
Proof.
  intros Hc.
  assert (Hu : forall d, contains c (NilZero.string_of_uint d) = false).
  { intros d. destruct d; try apply (uint_no_char c _ Hc).
    destruct (Hc "") as (_ & H0 & _). exact H0. }
  unfold str_int, NilZero.string_of_int.
  destruct (Z.to_int z) as [d|d]; [apply Hu|].
  destruct (Hc (NilZero.string_of_uint d)) as (Hm & _).
  etransitivity; [exact Hm | apply Hu].
Qed.

Lemma slash_not_numeral : numeral_char "/".
Proof. intros s. repeat split; reflexivity. Qed.

Lemma str_int_no_slash (z : Z) : contains sep (str_int z) = false.
Proof. apply str_int_no_char, slash_not_numeral. Qed.

Lemma eqb_refl (p : Path) : Pathlib.eqb p p = true.
Proof.
  unfold Pathlib.eqb, list_eqb. rewrite String.eqb_refl.
  destruct (list_eq_dec string_dec (comps p) (comps p)); [reflexivity | contradiction].
Qed.

Lemma eqb_eq (p q : Path) : Pathlib.eqb p q = true <-> p = q.
Proof.
  split; [|intros ->; apply eqb_refl].
  unfold Pathlib.eqb, list_eqb. destruct p as [r c], q as [r' c']; simpl.
  intros H. apply andb_true_iff in H as [Hr Hc].
  apply String.eqb_eq in Hr.
  destruct (list_eq_dec string_dec c c'); [congruence | discriminate].
Qed.

End StrFacts.

(* ===================================================================== *)
(** ** The files of the workspace *)
(* ===================================================================== *)

Module Layout.
Import PyStr Pathlib StrFacts.

(** A file directly under [d]. *)
Definition child (d : Path) (file : string) : Path :=
  mkPath (root d) (comps d ++ [file]).

(** The raster image, the OCR output base and the PDF of a page. *)
Definition page_tiff (d : Path) (page : Z) : Path :=
  child d ("page_" ++ str_int page ++ ".tiff")%string.
Definition page_base (d : Path) (page : Z) : Path :=
  child d ("page_" ++ str_int page)%string.
Definition page_pdf (d : Path) (page : Z) : Path :=
  child d ("page_" ++ str_int page ++ ".pdf")%string.

Lemma child_inside (d : Path) (file : string) : inside d (child d file).
Proof.
  split; [reflexivity|]. exists [file]. split; [discriminate | reflexivity].
Qed.

Lemma name_child (d : Path) (file : string) : name (child d file) = file.
Proof. unfold name, child; simpl. apply last_last. Qed.

(** A plain file name parses to a single relative component. *)
Lemma of_str_plain (c : ascii) (s : string) :
  Ascii.eqb c sep = false ->
  contains sep s = false ->
  String.eqb (String c s) "." = false ->
  of_str (String c s) = mkPath "" [String c s].
Proof.
  intros Hc Hs Hdot. unfold of_str, splitroot. rewrite Hc.
  rewrite split_no_sep by (simpl; now rewrite Hc, Hs).
  unfold keep_comp. cbn [filter]. rewrite Hdot. reflexivity.
Qed.

Lemma join_child (d : Path) (c : ascii) (s : string) :
  Ascii.eqb c sep = false ->
  contains sep s = false ->
  String.eqb (String c s) "." = false ->
  join_path d (of_str (String c s)) = child d (String c s).
Proof.
  intros Hc Hs Hdot. rewrite (of_str_plain c s Hc Hs Hdot). reflexivity.
Qed.

(** [tempdir / Path(f"page_{page}.tiff")]. *)
Lemma join_page_tiff (d : Path) (page : Z) :
  join_path d (of_str ("page_" ++ str_int page ++ ".tiff")%string) = page_tiff d page.
Proof.
  apply (join_child d "p"); try reflexivity.
  change (contains sep ("age_" ++ str_int page ++ ".tiff") = false).
  rewrite 2!contains_app, str_int_no_slash. reflexivity.
Qed.

(** [tempdir / Path("final.pdf")]. *)
Lemma join_final (d : Path) :
  join_path d (of_str "final.pdf") = child d "final.pdf".
Proof. reflexivity. Qed.

(** Replacing the extension of [<stem>.tiff]. *)
Lemma with_suffix_tiff (d : Path) (stem suf : string) :
  stem <> "" ->
  suf = "" \/ suf = ".pdf" ->
  with_suffix (child d (stem ++ ".tiff")%string) suf = Some (child d (stem ++ suf)%string).
Proof.
  intros Hstem Hsuf.
  assert (Hlen : 0 < String.length stem) by (destruct stem; [congruence | simpl; lia]).
  assert (Hsfx : suffix (child d (stem ++ ".tiff")%string) = ".tiff").
  { unfold suffix. rewrite name_child.
    rewrite (rfind_app_some "." stem ".tiff" 0) by reflexivity.
    rewrite Nat.add_0_r.
    replace (0 <? String.length stem)%nat with true by (symmetry; apply Nat.ltb_lt; lia).
    replace (String.length stem <? String.length (stem ++ ".tiff") - 1)%nat with true
      by (symmetry; apply Nat.ltb_lt; rewrite str_length_app; simpl; lia).
    unfold slice_from. rewrite substring_skip, str_length_app.
    replace (String.length stem + String.length ".tiff" - String.length stem) with 5
      by (simpl; lia).
    reflexivity. }
  unfold with_suffix.
  replace (contains sep suf) with false by (destruct Hsuf; subst; reflexivity).
  replace ((negb (String.eqb suf "") && negb (startswith suf ".")) || String.eqb suf ".")
    with false by (destruct Hsuf; subst; reflexivity).
  rewrite name_child, Hsfx.
  replace (String.eqb (stem ++ ".tiff") "") with false
    by (destruct stem; [congruence | reflexivity]).
  cbn [String.eqb Ascii.eqb Bool.eqb].
  unfold slice_to. rewrite str_length_app.
  replace (String.length stem + String.length ".tiff" - String.length ".tiff")
    with (String.length stem) by (simpl; lia).
  rewrite substring_take.
  unfold child at 2. cbn [root comps]. rewrite removelast_last. reflexivity.
Qed.

Lemma with_suffix_page_pdf (d : Path) (page : Z) :
  with_suffix (page_tiff d page) ".pdf" = Some (page_pdf d page).
Proof.
  unfold page_tiff, page_pdf.
  change ("page_" ++ str_int page ++ ".tiff")%string
    with (("page_" ++ str_int page) ++ ".tiff")%string.
  change ("page_" ++ str_int page ++ ".pdf")%string
    with (("page_" ++ str_int page) ++ ".pdf")%string.
  apply (with_suffix_tiff d ("page_" ++ str_int page) ".pdf"); [discriminate | now right].
Qed.

Lemma with_suffix_page_base (d : Path) (page : Z) :
  with_suffix (page_tiff d page) "" = Some (page_base d page).
Proof.
  unfold page_tiff, page_base.
  change ("page_" ++ str_int page ++ ".tiff")%string
    with (("page_" ++ str_int page) ++ ".tiff")%string.
  rewrite (with_suffix_tiff d ("page_" ++ str_int page) "") by (discriminate || now left).
  now rewrite app_empty_r.
Qed.

End Layout.

(* ===================================================================== *)
(** ** The stages of [main] and the effects they perform *)
(* ===================================================================== *)

Module Pipeline.
Import PyStr Pathlib Scanner StrFacts Layout.
Local Open Scope py_scope.

Lemma firstn_app_le {X} (k : nat) (l1 l2 : list X) :
  k <= length l1 -> firstn k (l1 ++ l2) = firstn k l1.
Proof.
  intros Hk. rewrite firstn_app.
  replace (k - length l1) with 0 by lia. simpl. apply app_nil_r.
Qed.

Lemma firstn_app_plus {X} (k : nat) (l1 l2 : list X) :
  firstn (length l1 + k) (l1 ++ l2) = l1 ++ firstn k l2.
Proof.
  rewrite firstn_app.
  replace (length l1 + k - length l1) with k by lia.
  now rewrite firstn_all2 by lia.
Qed.

Section WithEnv.
Variable env : Env.

(** *** A logic of traces

    [emits m l a]: wherever [m] is started it never leaves through
    [sys.exit]; when it returns, it returns [a] having performed exactly
    [l]; when it raises, it has performed a strict prefix of [l], and it
    stopped there either because the environment made the next system call
    fail, or because the next step was a copy that could not be made. *)
Definition stopped_by (w' : World) (l : list Event) (k : nat) : Prop :=
  fault env (trace w') <> None
  \/ exists src dst, nth_error l k = Some (EvCopy src dst).

Definition emits {A} (m : M A) (l : list Event) (a : A) : Prop :=
  forall w,
    match m w with
    | (Ret a', w') => a' = a /\ trace w' = trace w ++ l
    | (Raise _, w') =>
        exists k, k < length l /\ trace w' = trace w ++ firstn k l /\ stopped_by w' l k
    | (SysExit _, _) => False
    end.

Lemma emits_ret {A} (a : A) : emits (ret a) [] a.
Proof. intros w. simpl. now rewrite app_nil_r. Qed.

Lemma emits_bind {A B} (m : M A) (k : A -> M B) l1 l2 a b :
  emits m l1 a -> emits (k a) l2 b -> emits (bind m k) (l1 ++ l2) b.
Proof.
  intros Hm Hk w. unfold bind. specialize (Hm w).
  destruct (m w) as [[a'|e|c] w1]; [|  |contradiction].
  - destruct Hm as [-> Ht1]. specialize (Hk w1).
    destruct (k a w1) as [[b'|e|c] w2]; [| |contradiction].
    + destruct Hk as [-> Ht2]. split; [reflexivity|].
      now rewrite Ht2, Ht1, app_assoc.
    + destruct Hk as (n & Hn & Ht2 & Hstop).
      exists (length l1 + n). split; [rewrite length_app; lia|]. split.
      * now rewrite firstn_app_plus, Ht2, Ht1, app_assoc.
      * destruct Hstop as [Hf | (src & dst & Hnth)]; [now left | right].
        exists src, dst. rewrite nth_error_app2 by lia.
        now replace (length l1 + n - length l1) with n by lia.
  - destruct Hm as (n & Hn & Ht & Hstop).
    exists n. split; [rewrite length_app; lia|]. split.
    + now rewrite firstn_app_le by lia.
    + destruct Hstop as [Hf | (src & dst & Hnth)]; [now left | right].
      exists src, dst. now rewrite nth_error_app1.
Qed.

Lemma emits_syscall (ev : Event) (eff : FS -> FS) : emits (syscall env ev eff) [ev] tt.
Proof.
  intros w. unfold syscall. destruct (fault env (trace w)) eqn:Hf.
  - exists 0. simpl. split; [lia|]. split; [now rewrite app_nil_r|].
    left. now rewrite Hf.
  - simpl. now split.
Qed.

Lemma emits_print (s : string) : emits (print s) [EvPrint s] tt.
Proof. intros w. simpl. now split. Qed.

Lemma emits_print_args (l : list Arg) : emits (print_args l) [EvPrintArgs l] tt.
Proof. intros w. simpl. now split. Qed.

Lemma emits_copyfile (src dst : Path) : emits (copyfile env src dst) [EvCopy src dst] tt.
Proof.
  intros w. unfold copyfile.
  assert (Hraise : exists k, k < length [EvCopy src dst]
                             /\ trace w = trace w ++ firstn k [EvCopy src dst]
                             /\ stopped_by w [EvCopy src dst] k).
  { exists 0. simpl. split; [lia|]. split; [now rewrite app_nil_r|].
    right. now exists src, dst. }
  destruct (fs w src) as [n|]; [|exact Hraise].
  destruct (Pathlib.eqb src dst); [exact Hraise|].
  destruct n as [c|]; [apply emits_syscall | exact Hraise].
Qed.

(** *** The stages, as [main] runs them *)

Section Stages.
Variables (pages : Z) (output_dir filename : string) (sane_device : option string)
          (sane_resolution sane_contrast sane_brightness : Z) (sane_mode : string)
          (no_ocr : bool).

(** Lines 87-88: the file name with its extension. *)
Definition normalized (filename : string) : string :=
  if negb (endswith filename ".pdf") then (filename ++ ".pdf")%string else filename.

(** Line 90. *)
Definition final_output_path : Path :=
  join_path (of_str output_dir) (of_str (normalized filename)).

(** Lines 110-124: the command line of the scan driver. *)
Definition scan_argv : list Arg :=
  [ AStr "scanimage";
    AStr "-d";
    AStr (format_opt sane_device);
    AStr "--resolution";
    AStr (str_int sane_resolution);
    AStr "--brightness";
    AStr (str_int sane_brightness);
    AStr "--contrast";
    AStr (str_int sane_contrast);
    AStr "--mode";
    AStr sane_mode;
    AStr "--format";
    AStr "tiff" ].

(** Lines 104-128: the body of the capture loop. *)
Definition scan_page (tempdir : Path) (page : Z) (page_list : list Path) : M (list Path) :=
  let tpage := (page + 1)%Z in
  input env ("Press Enter to scan page " ++ str_int tpage)%string ;;
  let page_name := of_str ("page_" ++ str_int page ++ ".tiff")%string in
  let page_path := join_path tempdir page_name in
  open_w env page_path ;;
  subprocess_run env scan_argv (Some page_path) ;;
  let page_list := page_list ++ [page_path] in
  print (tab ++ "Done!")%string ;;
  ret page_list.

(** Lines 132-139: the body of the conversion loop. *)
Definition convert_page (page : Path) (pdf_list : list Path) : M (list Path) :=
  pdf_base <- path_with_suffix page "" ;;
  pdf_out <- path_with_suffix page ".pdf" ;;
  (if negb no_ocr
   then subprocess_run env [AStr "tesseract"; APath page; APath pdf_base; AStr "pdf"] None
   else subprocess_run env [AStr "convert"; APath page; APath pdf_out] None) ;;
  ret (pdf_list ++ [pdf_out]).

(** Line 146. *)
Definition gs_commands (final_pdf : Path) (pdf_list : list Path) : list Arg :=
  [AStr "gs"] ++ map AStr GS_OPTIONS
  ++ [AStr ("-sOutputFile=" ++ str final_pdf)%string] ++ map APath pdf_list.

(** Lines 142-148: the assembly. *)
Definition assemble (tempdir : Path) (pdf_list : list Path) : M Path :=
  if Nat.eqb (length pdf_list) 1 then index pdf_list 0
  else
    let final_pdf := join_path tempdir (of_str "final.pdf") in
    print_args (gs_commands final_pdf pdf_list) ;;
    subprocess_run env (gs_commands final_pdf pdf_list) None ;;
    ret final_pdf.

(** Lines 98-151: the body of the [with] block. *)
Definition workspace_body (simple_tempdir : string) : M unit :=
  let tempdir := of_str simple_tempdir in
  page_list <- for_each (range pages) (scan_page tempdir) [] ;;
  pdf_list <- for_each page_list convert_page [] ;;
  final_pdf <- assemble tempdir pdf_list ;;
  copyfile env final_pdf final_output_path.

(** [main] is these stages, literally. *)
Lemma main_stages :
  main env pages output_dir filename sane_device
       sane_resolution sane_contrast sane_brightness sane_mode no_ocr
  = (ex <- path_exists final_output_path ;;
     if ex then
       logger_error ("Output pdf " ++ str final_output_path ++ " already exists")%string
     else with_TemporaryDirectory env workspace_body).
Proof. reflexivity. Qed.


(** *** What a run that meets no failure performs *)

Definition scan_events (tempdir : Path) (page : Z) : list Event :=
  [ EvInput ("Press Enter to scan page " ++ str_int (page + 1))%string;
    EvOpenW (page_tiff tempdir page);
    EvRun scan_argv (Some (page_tiff tempdir page));
    EvPrint (tab ++ "Done!")%string ].

Definition convert_argv (tempdir : Path) (page : Z) : list Arg :=
  if negb no_ocr
  then [AStr "tesseract"; APath (page_tiff tempdir page);
        APath (page_base tempdir page); AStr "pdf"]
  else [AStr "convert"; APath (page_tiff tempdir page); APath (page_pdf tempdir page)].

Definition convert_event (tempdir : Path) (page : Z) : Event :=
  EvRun (convert_argv tempdir page) None.

Definition merge_argv (tempdir : Path) : list Arg :=
  gs_commands (child tempdir "final.pdf") (map (page_pdf tempdir) (range pages)).

Definition assemble_events (tempdir : Path) : list Event :=
  if Nat.eqb (length (range pages)) 1 then []
  else [EvPrintArgs (merge_argv tempdir); EvRun (merge_argv tempdir) None].

Definition final_pdf_path (tempdir : Path) : Path :=
  if Nat.eqb (length (range pages)) 1 then page_pdf tempdir 0
  else child tempdir "final.pdf".

Definition publish_event (tempdir : Path) : Event :=
  EvCopy (final_pdf_path tempdir) final_output_path.

(** Capture, conversion and assembly, and then the publication. *)
Definition pipeline_events (tempdir : Path) : list Event :=
  flat_map (scan_events tempdir) (range pages)
  ++ map (convert_event tempdir) (range pages)
  ++ assemble_events tempdir.

Definition body_events (tempdir : Path) : list Event :=
  pipeline_events tempdir ++ [publish_event tempdir].

Lemma body_events_eq (tempdir : Path) :
  body_events tempdir
  = flat_map (scan_events tempdir) (range pages)
    ++ map (convert_event tempdir) (range pages)
    ++ assemble_events tempdir
    ++ [publish_event tempdir].
Proof. unfold body_events, pipeline_events. now rewrite <- !app_assoc. Qed.

Lemma pipeline_has_no_copy (tempdir : Path) (src dst : Path) :
  ~ In (EvCopy src dst) (pipeline_events tempdir).
Proof.
  unfold pipeline_events. intros Hin.
  apply in_app_iff in Hin as [Hin | Hin].
  { apply in_flat_map in Hin as (page & _ & Hin). unfold scan_events in Hin.
    repeat (destruct Hin as [Hin | Hin]; [discriminate|]). contradiction. }
  apply in_app_iff in Hin as [Hin | Hin].
  { apply in_map_iff in Hin as (page & Hin & _). discriminate. }
  unfold assemble_events in Hin.
  destruct (Nat.eqb (length (range pages)) 1); [contradiction|].
  repeat (destruct Hin as [Hin | Hin]; [discriminate|]). contradiction.
Qed.

(** The copy is the last step: when it is the next one, the pipeline is
    behind. *)
Lemma copy_is_last (tempdir : Path) (k : nat) (src dst : Path) :
  nth_error (body_events tempdir) k = Some (EvCopy src dst) ->
  firstn k (body_events tempdir) = pipeline_events tempdir.
Proof.
  unfold body_events. intros Hnth.
  destruct (Nat.lt_ge_cases k (length (pipeline_events tempdir))) as [Hlt | Hge].
  - rewrite nth_error_app1 in Hnth by exact Hlt.
    apply nth_error_In in Hnth. now apply pipeline_has_no_copy in Hnth.
  - assert (Hk : k < length (pipeline_events tempdir ++ [publish_event tempdir])).
    { apply nth_error_Some. now rewrite Hnth. }
    rewrite length_app in Hk. simpl in Hk.
    replace k with (length (pipeline_events tempdir) + 0) by lia.
    rewrite firstn_app_plus. simpl. apply app_nil_r.
Qed.

Lemma emits_bind_cons {A B} (m : M A) (k : A -> M B) e l a b :
  emits m [e] a -> emits (k a) l b -> emits (bind m k) (e :: l) b.
Proof. intros Hm Hk. apply (emits_bind m k [e] l a b Hm Hk). Qed.

Lemma emits_bind_nil {A B} (m : M A) (k : A -> M B) l a b :
  emits m [] a -> emits (k a) l b -> emits (bind m k) l b.
Proof. intros Hm Hk. apply (emits_bind m k [] l a b Hm Hk). Qed.

Lemma scan_page_emits (tempdir : Path) (page : Z) (page_list : list Path) :
  emits (scan_page tempdir page page_list)
        (scan_events tempdir page) (page_list ++ [page_tiff tempdir page]).
Proof.
  unfold scan_page, scan_events. rewrite join_page_tiff.
  eapply emits_bind_cons; [apply emits_syscall|].
  eapply emits_bind_cons; [apply emits_syscall|].
  eapply emits_bind_cons; [apply emits_syscall|].
  eapply emits_bind_cons; [apply emits_print|].
  apply emits_ret.
Qed.

Lemma convert_page_emits (tempdir : Path) (page : Z) (pdf_list : list Path) :
  emits (convert_page (page_tiff tempdir page) pdf_list)
        [convert_event tempdir page] (pdf_list ++ [page_pdf tempdir page]).
Proof.
  unfold convert_page, convert_event, convert_argv, path_with_suffix.
  rewrite with_suffix_page_base, with_suffix_page_pdf.
  eapply emits_bind_nil; [apply emits_ret|].
  eapply emits_bind_nil; [apply emits_ret|].
  eapply emits_bind_cons; [|apply emits_ret].
  destruct (negb no_ocr); apply emits_syscall.
Qed.

Lemma scan_pages_emits (tempdir : Path) (l : list Z) (page_list : list Path) :
  emits (for_each l (scan_page tempdir) page_list)
        (flat_map (scan_events tempdir) l) (page_list ++ map (page_tiff tempdir) l).
Proof.
  revert page_list. induction l as [|page l IH]; intros page_list.
  - simpl. rewrite app_nil_r. apply emits_ret.
  - cbn [for_each flat_map map].
    eapply emits_bind; [apply scan_page_emits|].
    replace (page_list ++ page_tiff tempdir page :: map (page_tiff tempdir) l)
      with ((page_list ++ [page_tiff tempdir page]) ++ map (page_tiff tempdir) l)
      by (now rewrite <- app_assoc).
    apply IH.
Qed.

Lemma convert_pages_emits (tempdir : Path) (l : list Z) (pdf_list : list Path) :
  emits (for_each (map (page_tiff tempdir) l) convert_page pdf_list)
        (map (convert_event tempdir) l) (pdf_list ++ map (page_pdf tempdir) l).
Proof.
  revert pdf_list. induction l as [|page l IH]; intros pdf_list.
  - simpl. rewrite app_nil_r. apply emits_ret.
  - cbn [for_each map].
    eapply emits_bind_cons; [apply convert_page_emits|].
    replace (pdf_list ++ page_pdf tempdir page :: map (page_pdf tempdir) l)
      with ((pdf_list ++ [page_pdf tempdir page]) ++ map (page_pdf tempdir) l)
      by (now rewrite <- app_assoc).
    apply IH.
Qed.

Lemma range_length (n : Z) : length (range n) = Z.to_nat n.
Proof. unfold range. now rewrite length_map, length_seq. Qed.

Lemma range_single (n : Z) : length (range n) = 1 -> range n = [0%Z].
Proof. rewrite range_length. unfold range. now intros ->. Qed.

Lemma assemble_emits (tempdir : Path) :
  emits (assemble tempdir (map (page_pdf tempdir) (range pages)))
        (assemble_events tempdir) (final_pdf_path tempdir).
Proof.
  unfold assemble, assemble_events, final_pdf_path. rewrite length_map.
  destruct (Nat.eqb (length (range pages)) 1) eqn:Hlen.
  - apply Nat.eqb_eq in Hlen. rewrite (range_single _ Hlen). apply emits_ret.
  - rewrite join_final.
    eapply emits_bind_cons; [apply emits_print_args|].
    eapply emits_bind_cons; [apply emits_syscall|].
    apply emits_ret.
Qed.

Lemma workspace_body_emits (simple_tempdir : string) :
  emits (workspace_body simple_tempdir) (body_events (of_str simple_tempdir)) tt.
Proof.
  unfold workspace_body. rewrite body_events_eq.
  eapply emits_bind; [apply (scan_pages_emits _ _ [])|].
  eapply emits_bind; [apply (convert_pages_emits _ _ [])|].
  eapply emits_bind; [apply assemble_emits|].
  apply emits_copyfile.
Qed.

(** *** The shape of every run of [main] *)

(** What [main] adds to the trace, by the way it ends. *)
Definition main_run (w : World) (o : Outcome unit) (w' : World) : Prop :=
  let d := tmp_name env in
  match fs w final_output_path with
  | Some _ =>
      o = Ret tt /\ fs w' = fs w
      /\ trace w' = trace w
           ++ [EvLogError ("Output pdf " ++ str final_output_path ++ " already exists")%string]
  | None =>
      match o with
      | Ret _ =>
          trace w' = trace w ++ [EvMkdtemp d] ++ body_events (of_str d) ++ [EvCleanup d]
      | Raise _ =>
          (w' = w /\ fault env (trace w) <> None)
          \/ exists k, k < length (body_events (of_str d))
                       /\ trace w' = trace w ++ [EvMkdtemp d]
                                     ++ firstn k (body_events (of_str d)) ++ [EvCleanup d]
                       /\ (fault env (trace w ++ [EvMkdtemp d]
                                               ++ firstn k (body_events (of_str d))) <> None
                           \/ firstn k (body_events (of_str d)) = pipeline_events (of_str d))
      | SysExit _ => False
      end
  end.

Lemma main_runs (w : World) :
  main_run w
    (fst (main env pages output_dir filename sane_device
               sane_resolution sane_contrast sane_brightness sane_mode no_ocr w))
    (snd (main env pages output_dir filename sane_device
               sane_resolution sane_contrast sane_brightness sane_mode no_ocr w)).
Proof.
  rewrite main_stages. unfold main_run, bind, path_exists.
  destruct (fs w final_output_path) as [n|] eqn:Hex.
  - simpl. now repeat split.
  - unfold with_TemporaryDirectory, syscall.
    destruct (fault env (trace w)) as [e|] eqn:Hf; [simpl; left; now split|].
    set (w1 := mkWorld _ _).
    pose proof (workspace_body_emits (tmp_name env) w1) as Hb.
    destruct (workspace_body (tmp_name env) w1) as [[[]|e|c] w2]; simpl.
    + destruct Hb as [_ Ht]. rewrite Ht. subst w1. simpl.
      now rewrite <- !app_assoc.
    + right. destruct Hb as (k & Hk & Ht & Hstop). exists k. split; [exact Hk|]. split.
      * rewrite Ht. subst w1. simpl. now rewrite <- !app_assoc.
      * destruct Hstop as [Hfault | (src & dst & Hnth)].
        -- left. rewrite Ht in Hfault. subst w1. simpl in Hfault.
           now rewrite <- !app_assoc in Hfault.
        -- right. now apply (copy_is_last _ _ src dst).
    + contradiction.
Qed.


(** *** Reading a trace *)

(** What was performed between two worlds of one run. *)
Definition new_events (w w' : World) : list Event :=
  skipn (length (trace w)) (trace w').

Lemma new_events_app (w w' : World) (l : list Event) :
  trace w' = trace w ++ l -> new_events w w' = l.
Proof.
  intros H. unfold new_events. rewrite H, skipn_app, skipn_all, Nat.sub_diag.
  reflexivity.
Qed.

(** The program an event starts, if it starts one. *)
Definition command (ev : Event) : option string :=
  match ev with
  | EvRun (AStr c :: _) _ => Some c
  | _ => None
  end.

Definition invokes (c : string) (ev : Event) : bool :=
  match command ev with
  | Some c' => String.eqb c c'
  | None => false
  end.

(** The invocations of program [c] in a trace, in order. *)
Definition invocations (c : string) (l : list Event) : list Event :=
  filter (invokes c) l.

Definition scan_run (tempdir : Path) (page : Z) : Event :=
  EvRun scan_argv (Some (page_tiff tempdir page)).

Definition converter : string := if negb no_ocr then "tesseract" else "convert".

Lemma invocations_scan (c : string) (tempdir : Path) (l : list Z) :
  invocations c (flat_map (scan_events tempdir) l)
  = if String.eqb c "scanimage" then map (scan_run tempdir) l else [].
Proof.
  unfold invocations.
  induction l as [|page l IH]; [now destruct (String.eqb c "scanimage")|].
  cbn [flat_map]. rewrite filter_app, IH.
  unfold scan_events, scan_run. cbn [filter invokes command scan_argv].
  destruct (String.eqb c "scanimage"); reflexivity.
Qed.

Lemma command_convert (tempdir : Path) (page : Z) :
  command (convert_event tempdir page) = Some converter.
Proof. unfold convert_event, convert_argv, converter. now destruct (negb no_ocr). Qed.

Lemma invocations_convert (c : string) (tempdir : Path) (l : list Z) :
  invocations c (map (convert_event tempdir) l)
  = if String.eqb c converter then map (convert_event tempdir) l else [].
Proof.
  unfold invocations.
  induction l as [|page l IH]; [now destruct (String.eqb c converter)|].
  cbn [map filter]. unfold invokes at 1. rewrite command_convert, IH.
  destruct (String.eqb c converter); reflexivity.
Qed.

Lemma invocations_assemble (c : string) (tempdir : Path) :
  invocations c (assemble_events tempdir)
  = if Nat.eqb (length (range pages)) 1 then []
    else if String.eqb c "gs" then [EvRun (merge_argv tempdir) None] else [].
Proof.
  unfold invocations, assemble_events.
  destruct (Nat.eqb (length (range pages)) 1); [reflexivity|].
  cbn [filter invokes command merge_argv gs_commands app].
  destruct (String.eqb c "gs"); reflexivity.
Qed.

Lemma invocations_body (c : string) (tempdir : Path) :
  invocations c (body_events tempdir)
  = (if String.eqb c "scanimage" then map (scan_run tempdir) (range pages) else [])
    ++ (if String.eqb c converter then map (convert_event tempdir) (range pages) else [])
    ++ (if Nat.eqb (length (range pages)) 1 then []
        else if String.eqb c "gs" then [EvRun (merge_argv tempdir) None] else []).
Proof.
  rewrite body_events_eq.
  change (invocations c ?l) with (filter (invokes c) l).
  rewrite !filter_app.
  change (filter (invokes c) ?l) with (invocations c l).
  rewrite invocations_scan, invocations_convert, invocations_assemble.
  cbn. now rewrite app_nil_r.
Qed.

(** The publication starts no program. *)
Lemma invocations_pipeline (c : string) (tempdir : Path) :
  invocations c (pipeline_events tempdir) = invocations c (body_events tempdir).
Proof.
  unfold body_events, invocations. rewrite filter_app. cbn. now rewrite app_nil_r.
Qed.

Lemma firstn_In {X} (k : nat) (l : list X) (x : X) : In x (firstn k l) -> In x l.
Proof.
  revert k. induction l as [|y l IH]; intros [|k] H; cbn in H; try contradiction.
  destruct H as [H|H]; [now left | right; now apply (IH k)].
Qed.

(** Filtering a prefix gives a prefix of the filtered list. *)
Lemma filter_firstn {X} (f : X -> bool) (k : nat) (l : list X) :
  exists j, filter f (firstn k l) = firstn j (filter f l).
Proof.
  revert k. induction l as [|x l IH]; intros k.
  - exists 0. now destruct k.
  - destruct k as [|k]; [now exists 0|].
    destruct (IH k) as (j & Hj). cbn [firstn filter].
    destruct (f x).
    + exists (S j). cbn [firstn]. now rewrite Hj.
    + now exists j.
Qed.

(** The events of any run: the refusal, nothing, or the workspace being
    made, a prefix of the pipeline, and the workspace being removed. *)
Definition refusal : Event :=
  EvLogError ("Output pdf " ++ str final_output_path ++ " already exists")%string.

Definition main_of (w : World) : Outcome unit * World :=
  main env pages output_dir filename sane_device
       sane_resolution sane_contrast sane_brightness sane_mode no_ocr w.

Lemma main_events (w : World) :
  let d := tmp_name env in
  let l := new_events w (snd (main_of w)) in
  trace (snd (main_of w)) = trace w ++ l
  /\ match fs w final_output_path with
     | Some _ => fst (main_of w) = Ret tt /\ l = [refusal] /\ fs (snd (main_of w)) = fs w
     | None =>
         (exists k, l = [] /\ fault env (trace w) <> None
                    \/ l = [EvMkdtemp d] ++ firstn k (body_events (of_str d)) ++ [EvCleanup d])
         /\ (fst (main_of w) = Ret tt ->
             l = [EvMkdtemp d] ++ body_events (of_str d) ++ [EvCleanup d])
         /\ ((forall t, fault env t = None) ->
             l = [EvMkdtemp d] ++ body_events (of_str d) ++ [EvCleanup d]
             \/ l = [EvMkdtemp d] ++ pipeline_events (of_str d) ++ [EvCleanup d])
     end.
Proof.
  intros d l. subst l. unfold main_of.
  pose proof (main_runs w) as H. unfold main_run in H.
  destruct (fs w final_output_path) as [n|] eqn:Hex.
  - destruct H as (Ho & Hfs & Ht). rewrite (new_events_app _ _ _ Ht).
    repeat split; assumption.
  - destruct (fst (main env pages output_dir filename sane_device sane_resolution
                        sane_contrast sane_brightness sane_mode no_ocr w)) as [[]|e|c] eqn:Ho.
    + rewrite (new_events_app _ _ _ H). split; [exact H|].
      split; [|split; [reflexivity | now left]].
      exists (length (body_events (of_str d))). right. now rewrite firstn_all.
    + destruct H as [[Hw Hf] | (k & Hk & Ht & Hstop)].
      * rewrite (new_events_app _ _ [])
          by (rewrite Hw at 1; now rewrite app_nil_r).
        rewrite app_nil_r. split; [now rewrite Hw at 1|].
        split; [|split; [discriminate|]].
        -- exists 0. left. now split.
        -- intros Hnf. now rewrite Hnf in Hf.
      * rewrite (new_events_app _ _ _ Ht). split; [exact Ht|].
        split; [|split; [discriminate|]].
        -- exists k. now right.
        -- intros Hnf. right. destruct Hstop as [Hfault | Hpre].
           ++ now rewrite Hnf in Hfault.
           ++ now rewrite Hpre.
    + contradiction.
Qed.


Lemma invocations_framed (c : string) (l : list Event) :
  invocations c ([EvMkdtemp (tmp_name env)] ++ l ++ [EvCleanup (tmp_name env)])
  = invocations c l.
Proof.
  unfold invocations. rewrite !filter_app. cbn [filter invokes command].
  now rewrite app_nil_r.
Qed.

(** The invocations of a program in any run are a prefix of those of the
    complete pipeline; they are all of them when the run returns, and also
    when the output path is free and no system call fails. *)
Lemma invocations_main (c : string) (w : World) :
  let d := of_str (tmp_name env) in
  let l := new_events w (snd (main_of w)) in
  (exists j, invocations c l = firstn j (invocations c (body_events d)))
  /\ (fs w final_output_path = None -> fst (main_of w) = Ret tt ->
      invocations c l = invocations c (body_events d))
  /\ (fs w final_output_path = None -> (forall t, fault env t = None) ->
      invocations c l = invocations c (body_events d)).
Proof.
  intros d l. destruct (main_events w) as [_ H]. fold l in H.
  destruct (fs w final_output_path) as [n|].
  - destruct H as (_ & -> & _). split; [now exists 0 | split; discriminate].
  - destruct H as ((k & Hk) & Hret & Hnf). split; [|split].
    + destruct Hk as [[-> _] | ->]; [now exists 0|].
      rewrite invocations_framed. apply filter_firstn.
    + intros _ Ho. rewrite (Hret Ho). apply invocations_framed.
    + intros _ Hf. destruct (Hnf Hf) as [-> | ->]; rewrite invocations_framed;
        [reflexivity | apply invocations_pipeline].
Qed.

End Stages.
End WithEnv.
End Pipeline.

(* ===================================================================== *)
(** ** Properties of the script *)
(* ===================================================================== *)

Import PyStr Pathlib Scanner StrFacts Layout Pipeline.

(** *** The check for the external programs *)

(** The programs looked for, with the line logged when one is missing. *)
Definition required_commands : list (string * string) :=
  [ ("convert", "ImageMagick command convert is not installed");
    ("tesseract", "Tesseract is not installed");
    ("scanimage", "Sane is not installed");
    ("gs", "Ghostscript is not installed") ].

Definition is_missing (env : Env) (c : string * string) : bool :=
  match which env (fst c) with
  | Some _ => false
  | None => true
  end.

Definition missing_commands (env : Env) : list (string * string) :=
  filter (is_missing env) required_commands.

Definition error_lines (env : Env) : list Event :=
  map (fun c => EvLogError (snd c)) (missing_commands env).

(** C2. When one of convert, tesseract, scanimage, gs is not on the search
    path, the check logs one error line per missing program and leaves
    through [sys.exit(1)]; the script then ends with status 1 having done
    nothing else: the file system is the one it started with and the trace
    holds the error lines only.  When all four are found the check returns
    and the world is untouched. *)
Theorem missing_commands_abort
    (env : Env) (w : World)
    (pages : Z) (output_dir filename : string) (sane_device : option string)
    (sane_resolution sane_contrast sane_brightness : Z) (sane_mode : string)
    (no_ocr : bool) :
  look_for_required_commands env w
  = (match missing_commands env with [] => Ret tt | _ => SysExit 1 end,
     mkWorld (fs w) (trace w ++ error_lines env))
  /\ length (error_lines env) = length (missing_commands env)
  /\ (missing_commands env <> [] ->
      script env pages output_dir filename sane_device
             sane_resolution sane_contrast sane_brightness sane_mode no_ocr w
      = (SysExit 1, mkWorld (fs w) (trace w ++ error_lines env))
      /\ exit_status (@SysExit unit 1) <> 0%Z)
  /\ (missing_commands env = [] ->
      look_for_required_commands env w = (Ret tt, w)).
Proof.
  assert (H1 : look_for_required_commands env w
               = (match missing_commands env with [] => Ret tt | _ => SysExit 1 end,
                  mkWorld (fs w) (trace w ++ error_lines env))).
  { unfold look_for_required_commands, error_lines, missing_commands, required_commands,
      is_missing, bind, shutil_which, logger_error, record, ret, sys_exit.
    cbn [filter fst snd].
    destruct (which env "convert"), (which env "tesseract"),
             (which env "scanimage"), (which env "gs");
      cbn; rewrite <- ?app_assoc; try reflexivity.
    destruct w; cbn; now rewrite app_nil_r. }
  split; [exact H1|]. split; [apply length_map|]. split.
  - intros Hm. split; [|discriminate].
    unfold script, bind. rewrite H1.
    destruct (missing_commands env); [contradiction | reflexivity].
  - intros Hm. rewrite H1. unfold error_lines. rewrite Hm. cbn.
    destruct w; cbn; now rewrite app_nil_r.
Qed.

(** *** The output file *)

(** C7. A file name that does not end in [.pdf] gets [.pdf] appended once,
    one that does is kept as it is; either way the name used ends in
    [.pdf], normalizing twice changes nothing, and [main] behaves on a file
    name as on its normalized form. *)
Theorem filename_normalization
    (env : Env) (w : World)
    (pages : Z) (output_dir filename : string) (sane_device : option string)
    (sane_resolution sane_contrast sane_brightness : Z) (sane_mode : string)
    (no_ocr : bool) :
  normalized filename
  = (if endswith filename ".pdf" then filename else (filename ++ ".pdf")%string)
  /\ endswith (normalized filename) ".pdf" = true
  /\ normalized (normalized filename) = normalized filename
  /\ final_output_path output_dir filename
     = join_path (of_str output_dir) (of_str (normalized filename))
  /\ main env pages output_dir filename sane_device
          sane_resolution sane_contrast sane_brightness sane_mode no_ocr w
     = main env pages output_dir (normalized filename) sane_device
            sane_resolution sane_contrast sane_brightness sane_mode no_ocr w.
Proof.
  assert (Hends : endswith (normalized filename) ".pdf" = true).
  { unfold normalized. destruct (endswith filename ".pdf") eqn:He; cbn [negb].
    - exact He.
    - apply endswith_app. }
  assert (Hidem : normalized (normalized filename) = normalized filename).
  { unfold normalized at 1. now rewrite Hends. }
  split; [unfold normalized; now destruct (endswith filename ".pdf")|].
  split; [exact Hends|]. split; [exact Hidem|]. split; [reflexivity|].
  rewrite !main_stages. unfold workspace_body, final_output_path.
  now rewrite Hidem.
Qed.

(** C1. When something already exists at the final output path (the output
    directory joined with the normalized file name), [main] logs one error
    naming that path and returns; it has done nothing else: no temporary
    directory, no external program, and the file system, the existing file
    included, is the one it started with. *)
Theorem existing_output_is_refused
    (env : Env) (w : World) (existing : Node)
    (pages : Z) (output_dir filename : string) (sane_device : option string)
    (sane_resolution sane_contrast sane_brightness : Z) (sane_mode : string)
    (no_ocr : bool) :
  fs w (final_output_path output_dir filename) = Some existing ->
  main env pages output_dir filename sane_device
       sane_resolution sane_contrast sane_brightness sane_mode no_ocr w
  = (Ret tt,
     mkWorld (fs w)
       (trace w ++ [EvLogError ("Output pdf "
                                ++ str (final_output_path output_dir filename)
                                ++ " already exists")%string])).
Proof.
  intros Hex. rewrite main_stages. unfold bind, path_exists. rewrite Hex. reflexivity.
Qed.

(** *** The external programs a run starts *)

Section Invocations.
Variables (pages : Z) (output_dir filename : string) (sane_device : option string)
          (sane_resolution sane_contrast sane_brightness : Z) (sane_mode : string)
          (no_ocr : bool) (tempdir : Path).

Let body : list Event :=
  body_events pages output_dir filename sane_device
              sane_resolution sane_contrast sane_brightness sane_mode no_ocr tempdir.

Lemma converter_cases :
  converter no_ocr = (if no_ocr then "convert" else "tesseract").
Proof. unfold converter. now destruct no_ocr. Qed.

Lemma scans_of_body :
  invocations "scanimage" body
  = map (scan_run sane_device sane_resolution sane_contrast sane_brightness sane_mode tempdir)
        (range pages).
Proof.
  unfold body. rewrite invocations_body, converter_cases.
  destruct no_ocr, (Nat.eqb (length (range pages)) 1); cbn; now rewrite app_nil_r.
Qed.

Lemma conversions_of_body :
  invocations (if no_ocr then "convert" else "tesseract") body
  = map (convert_event no_ocr tempdir) (range pages).
Proof.
  unfold body. rewrite invocations_body, converter_cases.
  destruct no_ocr, (Nat.eqb (length (range pages)) 1); cbn; now rewrite app_nil_r.
Qed.

Lemma other_converter_of_body :
  invocations (if no_ocr then "tesseract" else "convert") body = [].
Proof.
  unfold body. rewrite invocations_body, converter_cases.
  destruct no_ocr, (Nat.eqb (length (range pages)) 1); reflexivity.
Qed.

Lemma merges_of_body :
  invocations "gs" body
  = if Nat.eqb (length (range pages)) 1 then []
    else [EvRun (merge_argv pages tempdir) None].
Proof.
  unfold body. rewrite invocations_body, converter_cases.
  destruct no_ocr, (Nat.eqb (length (range pages)) 1); reflexivity.
Qed.

End Invocations.

Lemma firstn_nil_eq {X} (j : nat) (l : list X) : l = [] -> firstn j l = [].
Proof. intros ->. apply firstn_nil. Qed.

(** C10. With no scanner device given, the scan driver is still started
    with [-d None]: every scan a run starts has exactly this command line,
    and a run that returns has started one such scan per page. *)
Theorem absent_device_is_passed_as_None
    (env : Env) (w : World)
    (pages : Z) (output_dir filename : string)
    (sane_resolution sane_contrast sane_brightness : Z) (sane_mode : string)
    (no_ocr : bool) :
  let d := of_str (tmp_name env) in
  let r := main env pages output_dir filename None
                sane_resolution sane_contrast sane_brightness sane_mode no_ocr w in
  let scans := invocations "scanimage" (new_events w (snd r)) in
  let scan page :=
    EvRun [ AStr "scanimage"; AStr "-d"; AStr "None";
            AStr "--resolution"; AStr (str_int sane_resolution);
            AStr "--brightness"; AStr (str_int sane_brightness);
            AStr "--contrast"; AStr (str_int sane_contrast);
            AStr "--mode"; AStr sane_mode;
            AStr "--format"; AStr "tiff" ]
          (Some (page_tiff d page)) in
  (exists j, scans = firstn j (map scan (range pages)))
  /\ (fs w (final_output_path output_dir filename) = None -> fst r = Ret tt ->
      scans = map scan (range pages))
  /\ (fs w (final_output_path output_dir filename) = None ->
      (forall t, fault env t = None) ->
      scans = map scan (range pages)).
Proof.
  intros d r scans scan.
  destruct (invocations_main env pages output_dir filename None
              sane_resolution sane_contrast sane_brightness sane_mode no_ocr
              "scanimage" w) as (Hpre & Hall & Hnf).
  rewrite scans_of_body in Hpre, Hall, Hnf.
  split; [exact Hpre | split; [exact Hall | exact Hnf]].
Qed.

(** C8. Each captured page is converted by one program, chosen by the
    flag: with [--no-ocr] the run starts [convert] on the page's image and
    PDF and never [tesseract]; without it the run starts [tesseract] on the
    image and the PDF's base name and never [convert].  The conversions
    follow the capture order, the PDF of a page is its image path with the
    extension replaced, and the conversion loop returns these PDF paths
    appended in that order. *)
Theorem one_converter_per_page
    (env : Env) (w : World)
    (pages : Z) (output_dir filename : string) (sane_device : option string)
    (sane_resolution sane_contrast sane_brightness : Z) (sane_mode : string)
    (no_ocr : bool) :
  let d := of_str (tmp_name env) in
  let r := main env pages output_dir filename sane_device
                sane_resolution sane_contrast sane_brightness sane_mode no_ocr w in
  let l := new_events w (snd r) in
  let conversion page :=
    EvRun (if no_ocr
           then [AStr "convert"; APath (page_tiff d page); APath (page_pdf d page)]
           else [AStr "tesseract"; APath (page_tiff d page);
                 APath (page_base d page); AStr "pdf"])
          None in
  (forall page, with_suffix (page_tiff d page) ".pdf" = Some (page_pdf d page)
                /\ with_suffix (page_tiff d page) "" = Some (page_base d page))
  /\ (forall captured pdf_list,
        emits env (for_each (map (page_tiff d) captured) (convert_page env no_ocr) pdf_list)
              (map conversion captured)
              (pdf_list ++ map (page_pdf d) captured))
  /\ invocations (if no_ocr then "tesseract" else "convert") l = []
  /\ (exists j, invocations (if no_ocr then "convert" else "tesseract") l
                = firstn j (map conversion (range pages)))
  /\ (fs w (final_output_path output_dir filename) = None -> fst r = Ret tt ->
      invocations (if no_ocr then "convert" else "tesseract") l
      = map conversion (range pages))
  /\ (fs w (final_output_path output_dir filename) = None ->
      (forall t, fault env t = None) ->
      invocations (if no_ocr then "convert" else "tesseract") l
      = map conversion (range pages)).
Proof.
  intros d r l conversion.
  assert (Hconv : forall page, conversion page = convert_event no_ocr d page).
  { intros page. unfold conversion, convert_event, convert_argv. now destruct no_ocr. }
  assert (Hmap : forall pl, map conversion pl = map (convert_event no_ocr d) pl).
  { intros pl. apply map_ext, Hconv. }
  split; [intros page; split;
          [apply with_suffix_page_pdf | apply with_suffix_page_base]|].
  split; [intros captured pdf_list; rewrite Hmap; apply convert_pages_emits|].
  destruct (invocations_main env pages output_dir filename sane_device
              sane_resolution sane_contrast sane_brightness sane_mode no_ocr
              (if no_ocr then "tesseract" else "convert") w) as [[j Hj] _].
  destruct (invocations_main env pages output_dir filename sane_device
              sane_resolution sane_contrast sane_brightness sane_mode no_ocr
              (if no_ocr then "convert" else "tesseract") w) as (Hpre & Hall & Hnf).
  rewrite other_converter_of_body, firstn_nil in Hj.
  rewrite conversions_of_body in Hpre, Hall, Hnf.
  rewrite Hmap.
  split; [exact Hj|]. split; [exact Hpre | split; [exact Hall | exact Hnf]].
Qed.

(** *** Assembly and publication *)

Lemma range_nth (n i : Z) :
  (0 <= i < n)%Z -> nth_error (range n) (Z.to_nat i) = Some i.
Proof.
  intros Hi. unfold range.
  rewrite nth_error_map, nth_error_seq.
  replace (Z.to_nat i <? Z.to_nat n)%nat with true
    by (symmetry; apply Nat.ltb_lt; lia).
  cbn. f_equal. lia.
Qed.

(** C3. With more than one page the compositor is started at most once,
    and exactly once in a run that returns: with the nine fixed options,
    an output file inside the workspace, and the PDFs of pages
    [0 .. pages-1] as inputs, one per page, in that order. *)
Theorem merge_once_in_capture_order
    (env : Env) (w : World)
    (pages : Z) (output_dir filename : string) (sane_device : option string)
    (sane_resolution sane_contrast sane_brightness : Z) (sane_mode : string)
    (no_ocr : bool) :
  (1 < pages)%Z ->
  let d := of_str (tmp_name env) in
  let r := main env pages output_dir filename sane_device
                sane_resolution sane_contrast sane_brightness sane_mode no_ocr w in
  let merges := invocations "gs" (new_events w (snd r)) in
  let inputs := map (page_pdf d) (range pages) in
  let merge :=
    EvRun ([ AStr "gs";
             AStr "-sDEVICE=pdfwrite";
             AStr "-dCompatibilityLevel=1.4";
             AStr "-dPDFSETTINGS=/default";
             AStr "-dNOPAUSE";
             AStr "-dQUIET";
             AStr "-dBATCH";
             AStr "-dDetectDuplicateImages";
             AStr "-dCompressFonts=true";
             AStr "-r150";
             AStr ("-sOutputFile=" ++ str (child d "final.pdf"))%string ]
           ++ map APath inputs) None in
  (merges = [] \/ merges = [merge])
  /\ (fs w (final_output_path output_dir filename) = None -> fst r = Ret tt ->
      merges = [merge])
  /\ (fs w (final_output_path output_dir filename) = None ->
      (forall t, fault env t = None) ->
      merges = [merge])
  /\ inside d (child d "final.pdf")
  /\ length inputs = Z.to_nat pages
  /\ (forall i, (0 <= i < pages)%Z ->
                nth_error inputs (Z.to_nat i) = Some (page_pdf d i)).
Proof.
  intros Hpages d r merges inputs merge.
  assert (Hlen : Nat.eqb (length (range pages)) 1 = false).
  { apply Nat.eqb_neq. rewrite range_length. lia. }
  destruct (invocations_main env pages output_dir filename sane_device
              sane_resolution sane_contrast sane_brightness sane_mode no_ocr
              "gs" w) as ([j Hj] & Hall & Hnf).
  rewrite merges_of_body, Hlen in Hj, Hall, Hnf.
  change (EvRun (merge_argv pages (of_str (tmp_name env))) None) with merge in Hj, Hall, Hnf.
  split; [|split; [exact Hall|split; [exact Hnf|split; [apply child_inside|split]]]].
  - destruct j as [|j]; [left; exact Hj|right].
    unfold main_of in Hj. unfold merges, r, d. rewrite Hj. cbn. now rewrite firstn_nil.
  - unfold inputs. now rewrite length_map, range_length.
  - intros i Hi. unfold inputs. rewrite nth_error_map, (range_nth _ _ Hi). reflexivity.
Qed.

Lemma copyfile_content (env : Env) (src dst : Path) (w2 w3 : World) :
  copyfile env src dst w2 = (Ret tt, w3) ->
  exists c, fs w2 src = Some (File c) /\ fs w3 dst = Some (File c)
            /\ fs w3 = fs_set dst (File c) (fs w2)
            /\ trace w3 = trace w2 ++ [EvCopy src dst].
Proof.
  unfold copyfile, syscall.
  destruct (fs w2 src) as [n|]; [|discriminate].
  destruct (Pathlib.eqb src dst); [discriminate|].
  destruct n as [c|]; [|discriminate].
  destruct (fault env (trace w2)); [discriminate|].
  intros [= <-]. exists c. cbn. unfold fs_set at 1. rewrite StrFacts.eqb_refl.
  now repeat split.
Qed.

(** C4. With one page the compositor is never started: assembly returns
    the page's PDF without doing anything, every copy a run makes is from
    that PDF to the final output path, and the copy gives the final output
    the content the PDF has at that moment.  When the run returns, it has
    captured and converted page 0, copied its PDF and removed the
    workspace, and the file system it leaves is the one the conversion
    left, with that content at the final output path and the workspace
    gone. *)
Theorem single_page_is_published_directly
    (env : Env) (w : World)
    (output_dir filename : string) (sane_device : option string)
    (sane_resolution sane_contrast sane_brightness : Z) (sane_mode : string)
    (no_ocr : bool) :
  let d := of_str (tmp_name env) in
  let final := final_output_path output_dir filename in
  let pdf := page_pdf d 0 in
  let r := main env 1 output_dir filename sane_device
                sane_resolution sane_contrast sane_brightness sane_mode no_ocr w in
  let l := new_events w (snd r) in
  invocations "gs" l = []
  /\ assemble env d [pdf] = ret pdf
  /\ (forall src dst, In (EvCopy src dst) l -> src = pdf /\ dst = final)
  /\ (forall w2 w3, copyfile env pdf final w2 = (Ret tt, w3) ->
                    fs w3 final = fs w2 pdf)
  /\ (fs w final = None -> fst r = Ret tt ->
      l = [EvMkdtemp (tmp_name env)]
          ++ scan_events sane_device sane_resolution sane_contrast sane_brightness
                         sane_mode d 0
          ++ [convert_event no_ocr d 0; EvCopy pdf final; EvCleanup (tmp_name env)]
      /\ let w1 := mkWorld (fs_set d Dir (fs w)) (trace w ++ [EvMkdtemp (tmp_name env)]) in
         let converted :=
           snd (bind (for_each (range 1)
                        (scan_page env sane_device sane_resolution sane_contrast
                                   sane_brightness sane_mode d) [])
                     (fun page_list => for_each page_list (convert_page env no_ocr) [])
                     w1) in
         exists c, fs converted pdf = Some (File c)
                   /\ fs (snd r) = fs_rmtree d (fs_set final (File c) (fs converted))).
Proof.
  intros d final pdf r l.
  pose proof (main_events env 1 output_dir filename sane_device
                sane_resolution sane_contrast sane_brightness sane_mode no_ocr w) as [_ Hev].
  destruct (invocations_main env 1 output_dir filename sane_device
              sane_resolution sane_contrast sane_brightness sane_mode no_ocr
              "gs" w) as [[j Hj] _].
  rewrite merges_of_body in Hj. cbn [range Z.to_nat Pos.to_nat Pos.iter_op seq map length
                                     Nat.eqb] in Hj.
  rewrite firstn_nil in Hj.
  assert (Hbody : body_events 1 output_dir filename sane_device sane_resolution
                    sane_contrast sane_brightness sane_mode no_ocr d
                  = scan_events sane_device sane_resolution sane_contrast sane_brightness
                                sane_mode d 0
                    ++ [convert_event no_ocr d 0; EvCopy pdf final]).
  { rewrite body_events_eq. cbn. reflexivity. }
  split; [exact Hj|]. split; [reflexivity|]. split; [|split].
  - (* every copy is the publication of the page's PDF *)
    intros src dst Hin. fold l in Hev. unfold main_of in Hev. fold r l in Hev.
    assert (Hsub : forall k ev,
              In ev ([EvMkdtemp (tmp_name env)]
                     ++ firstn k (body_events 1 output_dir filename sane_device
                                    sane_resolution sane_contrast sane_brightness
                                    sane_mode no_ocr d)
                     ++ [EvCleanup (tmp_name env)]) ->
              ev = EvCopy src dst -> src = pdf /\ dst = final).
    { intros k ev Hk ->. rewrite Hbody in Hk.
      apply in_app_iff in Hk as [Hk | Hk]; [destruct Hk as [Hk|[]]; discriminate|].
      apply in_app_iff in Hk as [Hk | Hk]; [|destruct Hk as [Hk|[]]; discriminate].
      apply firstn_In in Hk. cbn in Hk.
      repeat (destruct Hk as [Hk | Hk]; [try discriminate|]); [|contradiction].
      injection Hk as -> ->. now split. }
    destruct (fs w (final_output_path output_dir filename)) eqn:Hex.
    + destruct Hev as (_ & Hl & _). rewrite Hl in Hin.
      destruct Hin as [Hin|[]]. discriminate.
    + destruct Hev as [(k & [[Hl _] | Hl]) _]; rewrite Hl in Hin; [contradiction|].
      now apply (Hsub k (EvCopy src dst)).
  - intros w2 w3 Hc. destruct (copyfile_content _ _ _ _ _ Hc) as (c & Hs & Hd & _).
    now rewrite Hs, Hd.
  - intros Hex Ho. fold l in Hev. unfold main_of in Hev. fold r l in Hev.
    unfold final in Hex. rewrite Hex in Hev. destruct Hev as (_ & Hl & _).
    split; [rewrite (Hl Ho); change (of_str (tmp_name env)) with d;
            rewrite Hbody; now rewrite <- app_assoc|].
    (* follow the run through its stages *)
    intros w1 converted. subst converted.
    assert (Hr : r = with_TemporaryDirectory env
                       (workspace_body env 1 output_dir filename sane_device
                          sane_resolution sane_contrast sane_brightness sane_mode no_ocr) w).
    { unfold r. rewrite main_stages. unfold bind, path_exists. now rewrite Hex. }
    revert Ho. rewrite Hr. clear Hr.
    unfold with_TemporaryDirectory, syscall.
    destruct (fault env (trace w)); [discriminate|]. fold d w1.
    unfold workspace_body. fold d. unfold bind.
    pose proof (scan_pages_emits env sane_device sane_resolution sane_contrast
                  sane_brightness sane_mode d (range 1) [] w1) as Hs.
    destruct (for_each (range 1) _ [] w1) as [[page_list|e|c] wa]; cbn [fst snd];
      try discriminate.
    destruct Hs as [-> _].
    pose proof (convert_pages_emits env no_ocr d (range 1) [] wa) as Hc.
    cbn [app] in Hc |- *.
    destruct (for_each (map (page_tiff d) (range 1)) _ [] wa) as [[pdf_list|e|c] wb];
      cbn [fst snd]; try discriminate.
    destruct Hc as [-> _]. change (range 1) with [0%Z].
    cbn [map app assemble length Nat.eqb index nth_error ret]. fold pdf final.
    destruct (copyfile env pdf final wb) as [[[]|e|c] wc] eqn:Hcp; cbn [fst snd];
      try discriminate.
    intros _. destruct (copyfile_content _ _ _ _ _ Hcp) as (c & Hsrc & _ & Hfs & _).
    exists c. split; [exact Hsrc|]. now rewrite Hfs.
Qed.

(** *** The end of a run *)

(** C5, as the script has it. An exception leaving [main] is caught by the
    decorator and written to the log; the call then returns to the command,
    which closes the run with [sys.exit(0)]: the exit status is 0. *)
Theorem caught_exception_exits_zero
    (env : Env) (w w1 : World) (e : Exn)
    (pages : Z) (output_dir filename : string) (sane_device : option string)
    (sane_resolution sane_contrast sane_brightness : Z) (sane_mode : string)
    (no_ocr : bool) :
  main env pages output_dir filename sane_device
       sane_resolution sane_contrast sane_brightness sane_mode no_ocr w
  = (Raise e, w1) ->
  logger_catch
    (main env pages output_dir filename sane_device
          sane_resolution sane_contrast sane_brightness sane_mode no_ocr) w
  = (Ret tt, mkWorld (fs w1) (trace w1 ++ [EvLogException e]))
  /\ main_command env pages output_dir filename sane_device
                  sane_resolution sane_contrast sane_brightness sane_mode no_ocr w
     = (SysExit 0, mkWorld (fs w1) (trace w1 ++ [EvLogException e]))
  /\ exit_status
       (fst (main_command env pages output_dir filename sane_device
                          sane_resolution sane_contrast sane_brightness sane_mode no_ocr w))
     = 0%Z.
Proof.
  intros Hraise.
  assert (Hcatch : logger_catch
            (main env pages output_dir filename sane_device
                  sane_resolution sane_contrast sane_brightness sane_mode no_ocr) w
          = (Ret tt, mkWorld (fs w1) (trace w1 ++ [EvLogException e]))).
  { unfold logger_catch. now rewrite Hraise. }
  assert (Hcmd : main_command env pages output_dir filename sane_device
                   sane_resolution sane_contrast sane_brightness sane_mode no_ocr w
                 = (SysExit 0, mkWorld (fs w1) (trace w1 ++ [EvLogException e]))).
  { unfold main_command, click_standalone, bind. now rewrite Hcatch. }
  split; [exact Hcatch|]. split; [exact Hcmd|]. now rewrite Hcmd.
Qed.

(** C6, as the script has it. The page count is an [int] and is not
    checked: with a count of zero or less the run is not turned away.  The
    capture and conversion loops run zero times, so nothing is prompted for
    and no scan, OCR or conversion is started, and when the output path is
    free and the temporary directory can be made the run goes on into the
    workspace. *)
Theorem nonpositive_pages_are_not_rejected
    (env : Env) (w : World)
    (pages : Z) (output_dir filename : string) (sane_device : option string)
    (sane_resolution sane_contrast sane_brightness : Z) (sane_mode : string)
    (no_ocr : bool) :
  (pages <= 0)%Z ->
  let r := main env pages output_dir filename sane_device
                sane_resolution sane_contrast sane_brightness sane_mode no_ocr w in
  let l := new_events w (snd r) in
  range pages = []
  /\ invocations "scanimage" l = []
  /\ invocations "tesseract" l = []
  /\ invocations "convert" l = []
  /\ (forall prompt, ~ In (EvInput prompt) l)
  /\ (fs w (final_output_path output_dir filename) = None ->
      fault env (trace w) = None ->
      firstn 1 l = [EvMkdtemp (tmp_name env)]).
Proof.
  intros Hpages r l.
  assert (Hrange : range pages = []).
  { unfold range. now replace (Z.to_nat pages) with 0 by lia. }
  assert (Hinv : forall c, c = "scanimage" \/ c = "tesseract" \/ c = "convert" ->
                           invocations c l = []).
  { intros c Hc.
    destruct (invocations_main env pages output_dir filename sane_device
                sane_resolution sane_contrast sane_brightness sane_mode no_ocr
                c w) as [[j Hj] _].
    unfold l, r. unfold main_of in Hj. rewrite Hj.
    apply firstn_nil_eq. rewrite invocations_body, Hrange. cbn [map length Nat.eqb app].
    destruct Hc as [-> | [-> | ->]]; now destruct (String.eqb _ (converter no_ocr)). }
  split; [exact Hrange|].
  split; [apply Hinv; now left|].
  split; [apply Hinv; right; now left|].
  split; [apply Hinv; right; now right|].
  pose proof (main_events env pages output_dir filename sane_device
                sane_resolution sane_contrast sane_brightness sane_mode no_ocr w) as [_ Hev].
  unfold main_of in Hev. fold r l in Hev.
  assert (Hbody : forall prompt d,
            ~ In (EvInput prompt)
                 (body_events pages output_dir filename sane_device sane_resolution
                    sane_contrast sane_brightness sane_mode no_ocr d)).
  { intros prompt d. rewrite body_events_eq. unfold assemble_events, publish_event.
    rewrite Hrange. cbn. intros [H | [H | [H | []]]]; discriminate. }
  split.
  - intros prompt Hin.
    destruct (fs w (final_output_path output_dir filename)).
    + destruct Hev as (_ & Hl & _). rewrite Hl in Hin.
      destruct Hin as [Hin|[]]. discriminate.
    + destruct Hev as [(k & [[Hl _] | Hl]) _]; rewrite Hl in Hin; [contradiction|].
      cbn [app] in Hin. destruct Hin as [Hin | Hin]; [discriminate|].
      apply in_app_iff in Hin. destruct Hin as [Hin | [Hin | []]]; [|discriminate].
      apply firstn_In in Hin. now apply Hbody in Hin.
  - intros Hex Hfault. rewrite Hex in Hev.
    destruct Hev as [(k & [[_ Hf] | Hl]) _]; [contradiction|].
    now rewrite Hl.
Qed.

(** *** What a run touches *)

(** The paths an event hands to the operating system or to an external
    program for writing; a program is taken to write to any path on its
    command line. *)
Definition arg_paths (argv : list Arg) : list Path :=
  flat_map (fun a => match a with APath p => [p] | AStr _ => [] end) argv.

Definition written (ev : Event) : list Path :=
  match ev with
  | EvOpenW p => [p]
  | EvRun argv stdout =>
      arg_paths argv ++ match stdout with Some p => [p] | None => [] end
  | EvCopy _ dst => [dst]
  | _ => []
  end.

Definition is_copy (ev : Event) : bool :=
  match ev with
  | EvCopy _ _ => true
  | _ => false
  end.

Lemma arg_paths_app (a b : list Arg) : arg_paths (a ++ b) = arg_paths a ++ arg_paths b.
Proof. unfold arg_paths. apply flat_map_app. Qed.

Lemma arg_paths_strs (l : list string) : arg_paths (map AStr l) = [].
Proof. induction l as [|x l IH]; [reflexivity | exact IH]. Qed.

Lemma arg_paths_paths (l : list Path) : arg_paths (map APath l) = l.
Proof. induction l as [|x l IH]; [reflexivity | cbn; now rewrite <- IH at 2]. Qed.

Section Frame.
Variables (pages : Z) (output_dir filename : string) (sane_device : option string)
          (sane_resolution sane_contrast sane_brightness : Z) (sane_mode : string)
          (no_ocr : bool) (d : Path).

Let final : Path := final_output_path output_dir filename.
Let body : list Event :=
  body_events pages output_dir filename sane_device
              sane_resolution sane_contrast sane_brightness sane_mode no_ocr d.
Let publication : Event := EvCopy (final_pdf_path pages d) final.

Lemma final_pdf_inside : inside d (final_pdf_path pages d).
Proof.
  unfold final_pdf_path. destruct (Nat.eqb (length (range pages)) 1); apply child_inside.
Qed.

Lemma scan_written (page : Z) (ev : Event) (p : Path) :
  In ev (scan_events sane_device sane_resolution sane_contrast sane_brightness
                     sane_mode d page) ->
  In p (written ev) -> inside d p.
Proof.
  unfold scan_events. intros Hev Hp.
  repeat (destruct Hev as [<- | Hev]); try contradiction; cbn in Hp.
  - destruct Hp as [<- | []]. apply child_inside.
  - destruct Hp as [<- | []]. apply child_inside.
Qed.

Lemma convert_written (page : Z) (p : Path) :
  In p (written (convert_event no_ocr d page)) -> inside d p.
Proof.
  unfold convert_event, convert_argv.
  destruct no_ocr; cbn; intros [<- | [<- | []]]; apply child_inside.
Qed.

Lemma assemble_written (ev : Event) (p : Path) :
  In ev (assemble_events pages d) -> In p (written ev) -> inside d p.
Proof.
  unfold assemble_events.
  destruct (Nat.eqb (length (range pages)) 1); [contradiction|].
  intros [<- | [<- | []]] Hp; [contradiction|].
  cbn [written] in Hp. rewrite app_nil_r in Hp.
  unfold merge_argv, gs_commands in Hp.
  rewrite !arg_paths_app, arg_paths_strs, arg_paths_paths in Hp.
  cbn in Hp. apply in_map_iff in Hp as (page & <- & _). apply child_inside.
Qed.

Lemma body_written (ev : Event) (p : Path) :
  In ev body -> In p (written ev) ->
  inside d p \/ (ev = publication /\ p = final).
Proof.
  unfold body. rewrite body_events_eq. intros Hev Hp.
  apply in_app_iff in Hev as [Hev | Hev].
  { apply in_flat_map in Hev as (page & _ & Hev). left. now apply (scan_written page ev). }
  apply in_app_iff in Hev as [Hev | Hev].
  { apply in_map_iff in Hev as (page & <- & _). left. now apply (convert_written page). }
  apply in_app_iff in Hev as [Hev | Hev].
  { left. now apply (assemble_written ev). }
  destruct Hev as [<- | []]. right. cbn in Hp. destruct Hp as [<- | []]. now split.
Qed.

Lemma copies_of_body : filter is_copy body = [publication].
Proof.
  unfold body. rewrite body_events_eq, !filter_app.
  assert (Hs : forall l, filter is_copy
                (flat_map (scan_events sane_device sane_resolution sane_contrast
                             sane_brightness sane_mode d) l) = []).
  { induction l as [|page l IH]; [reflexivity|]. cbn [flat_map]. rewrite filter_app, IH.
    reflexivity. }
  assert (Hc : forall l, filter is_copy (map (convert_event no_ocr d) l) = []).
  { induction l as [|page l IH]; [reflexivity | exact IH]. }
  assert (Ha : filter is_copy (assemble_events pages d) = []).
  { unfold assemble_events. now destruct (Nat.eqb (length (range pages)) 1). }
  rewrite Hs, Hc, Ha. reflexivity.
Qed.

End Frame.

(** *** What a run leaves behind *)

Section Durable.
Variable env : Env.
Variables (d final : Path).

(** [q] is not the final output, not the workspace and not in it. *)
Definition elsewhere (q : Path) : Prop :=
  q <> final /\ q <> d /\ below d q = false.

(** The external programs keep to the workspace. *)
Definition confined : Prop :=
  forall argv f q, q <> d -> below d q = false -> snd (proc env argv f) q = f q.

Definition same_elsewhere (f f' : FS) : Prop :=
  forall q, elsewhere q -> f' q = f q.

(** [m] changes nothing elsewhere, however it ends. *)
Definition keeps {A} (m : M A) : Prop :=
  forall w, same_elsewhere (fs w) (fs (snd (m w))).

Lemma same_elsewhere_refl (f : FS) : same_elsewhere f f.
Proof. now intros q _. Qed.

Lemma same_elsewhere_trans (f g h : FS) :
  same_elsewhere f g -> same_elsewhere g h -> same_elsewhere f h.
Proof. intros Hfg Hgh q Hq. now rewrite (Hgh q Hq), (Hfg q Hq). Qed.

Lemma below_child (file : string) : below d (child d file) = true.
Proof.
  unfold below, child. cbn [root comps]. rewrite String.eqb_refl, length_app.
  replace (length (comps d) <? length (comps d) + length [file])%nat with true
    by (symmetry; apply Nat.ltb_lt; simpl; lia).
  rewrite firstn_app, Nat.sub_diag, firstn_all. cbn [firstn]. rewrite app_nil_r.
  unfold list_eqb. now destruct (list_eq_dec string_dec (comps d) (comps d)).
Qed.

Lemma fs_set_elsewhere (p : Path) (n : Node) (f : FS) :
  p = final \/ p = d \/ below d p = true -> same_elsewhere f (fs_set p n f).
Proof.
  intros Hp q (Hfinal & Hd & Hbelow). unfold fs_set.
  destruct (Pathlib.eqb q p) eqn:Heq; [|reflexivity].
  apply StrFacts.eqb_eq in Heq. subst q.
  destruct Hp as [-> | [-> | Hp]]; congruence.
Qed.

Lemma fs_rmtree_elsewhere (f : FS) : same_elsewhere f (fs_rmtree d f).
Proof.
  intros q (_ & Hd & Hbelow). unfold fs_rmtree. rewrite Hbelow.
  destruct (Pathlib.eqb q d) eqn:Heq; [|reflexivity].
  apply StrFacts.eqb_eq in Heq. contradiction.
Qed.

Lemma keeps_ret {A} (a : A) : keeps (ret a).
Proof. intros w. apply same_elsewhere_refl. Qed.

Lemma keeps_raise {A} (e : Exn) : keeps (@raise A e).
Proof. intros w. apply same_elsewhere_refl. Qed.

Lemma keeps_bind {A B} (m : M A) (k : A -> M B) :
  keeps m -> (forall a, keeps (k a)) -> keeps (bind m k).
Proof.
  intros Hm Hk w. unfold bind. specialize (Hm w).
  destruct (m w) as [[a|e|c] w1]; cbn [snd] in *; try exact Hm.
  eapply same_elsewhere_trans; [exact Hm | apply Hk].
Qed.

Lemma keeps_syscall (ev : Event) (eff : FS -> FS) :
  (forall f, same_elsewhere f (eff f)) -> keeps (syscall env ev eff).
Proof.
  intros Heff w. unfold syscall.
  destruct (fault env (trace w)); cbn [snd fs]; [apply same_elsewhere_refl | apply Heff].
Qed.

Lemma keeps_for_each {X St} (body : X -> St -> M St) (xs : list X) (st : St) :
  (forall x st, keeps (body x st)) -> keeps (for_each xs body st).
Proof.
  intros Hbody. revert st. induction xs as [|x xs IH]; intros st; cbn [for_each].
  - apply keeps_ret.
  - apply keeps_bind; [apply Hbody | intros st'; apply IH].
Qed.

Lemma keeps_run (argv : list Arg) (stdout : option Path) :
  confined ->
  match stdout with Some p => below d p = true | None => True end ->
  keeps (subprocess_run env argv stdout).
Proof.
  intros Hconf Hout. apply keeps_syscall. intros f.
  assert (Hproc : same_elsewhere f (snd (proc env (map str_arg argv) f))).
  { intros q (_ & Hd & Hbelow). now apply Hconf. }
  destruct (proc env (map str_arg argv) f) as [out f']. cbn [snd] in Hproc.
  destruct stdout as [p|]; [|exact Hproc].
  eapply same_elsewhere_trans; [exact Hproc|].
  apply fs_set_elsewhere. now right; right.
Qed.

Lemma keeps_copyfile (src : Path) : keeps (copyfile env src final).
Proof.
  intros w. unfold copyfile.
  destruct (fs w src) as [n|]; [|apply same_elsewhere_refl].
  destruct (Pathlib.eqb src final); [apply same_elsewhere_refl|].
  destruct n as [c|]; [|apply same_elsewhere_refl].
  apply keeps_syscall. intros f. apply fs_set_elsewhere. now left.
Qed.

Lemma keeps_with_TemporaryDirectory {A} (body : string -> M A) :
  d = of_str (tmp_name env) ->
  keeps (body (tmp_name env)) -> keeps (with_TemporaryDirectory env body).
Proof.
  intros Hd Hbody w. unfold with_TemporaryDirectory, syscall.
  destruct (fault env (trace w)); [apply same_elsewhere_refl|].
  set (w1 := mkWorld _ _). specialize (Hbody w1).
  destruct (body (tmp_name env) w1) as [o w2]. cbn [snd fs] in *.
  eapply same_elsewhere_trans; [|rewrite <- Hd; apply fs_rmtree_elsewhere].
  eapply same_elsewhere_trans; [|exact Hbody].
  subst w1. cbn [fs]. rewrite <- Hd. apply fs_set_elsewhere. now right; left.
Qed.

End Durable.

Lemma bind_returns {A B} (m : M A) (k : A -> M B) (w w' : World) (b : B) :
  bind m k w = (Ret b, w') ->
  exists a w1, m w = (Ret a, w1) /\ k a w1 = (Ret b, w').
Proof.
  unfold bind. destruct (m w) as [[a|e|c] w1]; try discriminate.
  intros H. now exists a, w1.
Qed.

Section DurableMain.
Variable env : Env.
Variables (pages : Z) (output_dir filename : string) (sane_device : option string)
          (sane_resolution sane_contrast sane_brightness : Z) (sane_mode : string)
          (no_ocr : bool).

Let d : Path := of_str (tmp_name env).
Let final : Path := final_output_path output_dir filename.

Lemma main_keeps :
  confined env d ->
  keeps d final
    (main env pages output_dir filename sane_device
          sane_resolution sane_contrast sane_brightness sane_mode no_ocr).
Proof.
  intros Hconf. rewrite main_stages. fold final.
  apply keeps_bind; [intros w; apply same_elsewhere_refl|].
  intros [|]; [intros w; apply same_elsewhere_refl|].
  apply keeps_with_TemporaryDirectory; [reflexivity|].
  unfold workspace_body. fold d final.
  apply keeps_bind; [|intros page_list; apply keeps_bind; [|intros pdf_list; apply keeps_bind]].
  - (* capture *)
    apply keeps_for_each. intros page page_list. unfold scan_page.
    rewrite join_page_tiff.
    apply keeps_bind; [apply keeps_syscall; intros f; apply same_elsewhere_refl|].
    intros _. apply keeps_bind.
    { apply keeps_syscall. intros f. apply fs_set_elsewhere. right; right.
      apply below_child. }
    intros _. apply keeps_bind; [apply keeps_run; [exact Hconf | apply below_child]|].
    intros _. apply keeps_bind; [intros w; apply same_elsewhere_refl|].
    intros _. apply keeps_ret.
  - (* conversion *)
    apply keeps_for_each. intros page acc. unfold convert_page, path_with_suffix.
    apply keeps_bind; [destruct (with_suffix page ""); [apply keeps_ret | apply keeps_raise]|].
    intros pdf_base. apply keeps_bind;
      [destruct (with_suffix page ".pdf"); [apply keeps_ret | apply keeps_raise]|].
    intros pdf_out. apply keeps_bind; [|intros _; apply keeps_ret].
    destruct (negb no_ocr); apply keeps_run; (exact Hconf || exact I).
  - (* assembly *)
    unfold assemble. destruct (Nat.eqb (length pdf_list) 1).
    + unfold index. destruct (nth_error pdf_list 0); [apply keeps_ret | apply keeps_raise].
    + apply keeps_bind; [intros w; apply same_elsewhere_refl|].
      intros _. apply keeps_bind; [apply keeps_run; [exact Hconf | exact I]|].
      intros _. apply keeps_ret.
  - (* publication *)
    intros final_pdf. apply keeps_copyfile.
Qed.

(** A run that returns has put a file at the final output path. *)
Lemma main_publishes (w : World) :
  fs w final = None ->
  fst (main env pages output_dir filename sane_device
            sane_resolution sane_contrast sane_brightness sane_mode no_ocr w) = Ret tt ->
  final <> d -> below d final = false ->
  exists c,
    fs (snd (main env pages output_dir filename sane_device
                  sane_resolution sane_contrast sane_brightness sane_mode no_ocr w)) final
    = Some (File c).
Proof.
  intros Hex Ho Hd Hbelow. revert Ho. rewrite main_stages. fold final.
  unfold bind at 1 2, path_exists. rewrite Hex.
  unfold with_TemporaryDirectory, syscall.
  destruct (fault env (trace w)); [discriminate|].
  set (w1 := mkWorld _ _).
  destruct (workspace_body _ _ _ _ _ _ _ _ _ _ _ w1) as [[[]|e|c] w2] eqn:Hbody;
    cbn [fst snd fs]; try discriminate.
  intros _. unfold workspace_body in Hbody.
  apply bind_returns in Hbody as (page_list & wa & _ & Hbody).
  apply bind_returns in Hbody as (pdf_list & wb & _ & Hbody).
  apply bind_returns in Hbody as (final_pdf & wc & _ & Hcopy).
  destruct (copyfile_content _ _ _ _ _ Hcopy) as (c & _ & Hdst & _).
  exists c. fold final in Hdst. fold d. unfold fs_rmtree. rewrite Hbelow.
  destruct (Pathlib.eqb final d) eqn:Heq; [|exact Hdst].
  apply StrFacts.eqb_eq in Heq. contradiction.
Qed.

End DurableMain.


(* ===================================================================== *)
(** ** Runs on the simulated machine *)
(* ===================================================================== *)

Import Sim.

(** A file system where [./report.pdf] is already there. *)
Definition taken_fs : FS := fs_set (of_str "report.pdf") (File "old") empty_fs.

Lemma existing_output_is_refused_witness :
  main machine 2 "." "report" None 150 0 0 "Color" false (boot taken_fs)
  = (Ret tt, mkWorld taken_fs [EvLogError "Output pdf report.pdf already exists"]).
Proof.
  apply (existing_output_is_refused machine (boot taken_fs) (File "old")
           2 "." "report" None 150 0 0 "Color" false).
  reflexivity.
Defined.

Lemma missing_commands_abort_witness :
  script (mkEnv (without ["tesseract"; "gs"]) "/tmp/tmpq1w2e3" programs no_fault)
         2 "." "report" None 150 0 0 "Color" false (boot empty_fs)
  = (SysExit 1,
     mkWorld empty_fs [EvLogError "Tesseract is not installed";
                       EvLogError "Ghostscript is not installed"]).
Proof.
  apply (proj1 (proj1 (proj2 (proj2
           (missing_commands_abort
              (mkEnv (without ["tesseract"; "gs"]) "/tmp/tmpq1w2e3" programs no_fault)
              (boot empty_fs) 2 "." "report" None 150 0 0 "Color" false))) ltac:(discriminate))).
Defined.

Lemma merge_once_in_capture_order_witness :
  invocations "gs"
    (new_events (boot empty_fs)
       (snd (main machine 3 "." "report" None 150 0 0 "Color" false (boot empty_fs))))
  = [EvRun [ AStr "gs"; AStr "-sDEVICE=pdfwrite"; AStr "-dCompatibilityLevel=1.4";
             AStr "-dPDFSETTINGS=/default"; AStr "-dNOPAUSE"; AStr "-dQUIET";
             AStr "-dBATCH"; AStr "-dDetectDuplicateImages"; AStr "-dCompressFonts=true";
             AStr "-r150"; AStr "-sOutputFile=/tmp/tmpq1w2e3/final.pdf";
             APath (mkPath "/" ["tmp"; "tmpq1w2e3"; "page_0.pdf"]);
             APath (mkPath "/" ["tmp"; "tmpq1w2e3"; "page_1.pdf"]);
             APath (mkPath "/" ["tmp"; "tmpq1w2e3"; "page_2.pdf"]) ] None].
Proof.
  apply (proj1 (proj2 (proj2
           (merge_once_in_capture_order machine (boot empty_fs)
              3 "." "report" None 150 0 0 "Color" false ltac:(lia))))
           eq_refl (fun _ => eq_refl)).
Defined.

Lemma single_page_is_published_directly_witness :
  new_events (boot empty_fs)
    (snd (main machine 1 "." "scan.pdf" None 150 0 0 "Color" true (boot empty_fs)))
  = [ EvMkdtemp "/tmp/tmpq1w2e3";
      EvInput "Press Enter to scan page 1";
      EvOpenW (mkPath "/" ["tmp"; "tmpq1w2e3"; "page_0.tiff"]);
      EvRun [ AStr "scanimage"; AStr "-d"; AStr "None"; AStr "--resolution"; AStr "150";
              AStr "--brightness"; AStr "0"; AStr "--contrast"; AStr "0";
              AStr "--mode"; AStr "Color"; AStr "--format"; AStr "tiff" ]
            (Some (mkPath "/" ["tmp"; "tmpq1w2e3"; "page_0.tiff"]));
      EvPrint (tab ++ "Done!")%string;
      EvRun [ AStr "convert";
              APath (mkPath "/" ["tmp"; "tmpq1w2e3"; "page_0.tiff"]);
              APath (mkPath "/" ["tmp"; "tmpq1w2e3"; "page_0.pdf"]) ] None;
      EvCopy (mkPath "/" ["tmp"; "tmpq1w2e3"; "page_0.pdf"]) (mkPath "" ["scan.pdf"]);
      EvCleanup "/tmp/tmpq1w2e3" ].
Proof.
  apply (proj1 (proj2 (proj2 (proj2 (proj2
           (single_page_is_published_directly machine (boot empty_fs)
              "." "scan.pdf" None 150 0 0 "Color" true)))) eq_refl eq_refl)).
Defined.

(** Standard input is closed: the first prompt raises. *)
Definition interrupted : World :=
  snd (main machine_no_stdin 2 "." "report" None 150 0 0 "Color" false (boot empty_fs)).

Lemma caught_exception_exits_zero_witness :
  main_command machine_no_stdin 2 "." "report" None 150 0 0 "Color" false (boot empty_fs)
  = (SysExit 0, mkWorld (fs interrupted) (trace interrupted ++ [EvLogException EOFError])).
Proof.
  apply (proj1 (proj2
           (caught_exception_exits_zero machine_no_stdin (boot empty_fs) interrupted EOFError
              2 "." "report" None 150 0 0 "Color" false eq_refl))).
Defined.

(** C5, refuted. The programs run and write nothing, so the copy finds no
    file and raises inside [main]; the exception is logged, and the script
    ends with status 0. *)
Lemma caught_exception_exit_status_counterexample :
  fst (main machine_broken 2 "." "report" None 150 0 0 "Color" false (boot empty_fs))
  = Raise (FileNotFoundError "/tmp/tmpq1w2e3/final.pdf")
  /\ In (EvLogException (FileNotFoundError "/tmp/tmpq1w2e3/final.pdf"))
        (trace (snd (script machine_broken 2 "." "report" None 150 0 0 "Color" false
                            (boot empty_fs))))
  /\ exit_status
       (fst (script machine_broken 2 "." "report" None 150 0 0 "Color" false
                    (boot empty_fs)))
     = 0%Z.
Proof.
  split; [vm_compute; reflexivity|]. split; [|vm_compute; reflexivity].
  vm_compute. repeat (first [left; reflexivity | right]).
Qed.

Lemma nonpositive_pages_are_not_rejected_witness :
  firstn 1 (new_events (boot empty_fs)
              (snd (main machine (-2) "." "report" None 150 0 0 "Color" false
                         (boot empty_fs))))
  = [EvMkdtemp "/tmp/tmpq1w2e3"].
Proof.
  apply (proj2 (proj2 (proj2 (proj2 (proj2
           (nonpositive_pages_are_not_rejected machine (boot empty_fs)
              (-2) "." "report" None 150 0 0 "Color" false ltac:(lia))))))
           eq_refl eq_refl).
Defined.

(** C6, refuted. A count of zero is taken: the run makes its workspace,
    starts the compositor on no input, publishes what it wrote and ends
    with status 0; a negative count is taken as well. *)
Lemma zero_pages_counterexample :
  trace (snd (script machine 0 "." "report" None 150 0 0 "Color" false (boot empty_fs)))
  = [ EvMkdtemp "/tmp/tmpq1w2e3";
      EvPrintArgs (gs_commands (mkPath "/" ["tmp"; "tmpq1w2e3"; "final.pdf"]) []);
      EvRun (gs_commands (mkPath "/" ["tmp"; "tmpq1w2e3"; "final.pdf"]) []) None;
      EvCopy (mkPath "/" ["tmp"; "tmpq1w2e3"; "final.pdf"]) (mkPath "" ["report.pdf"]);
      EvCleanup "/tmp/tmpq1w2e3" ]
  /\ fs (snd (script machine 0 "." "report" None 150 0 0 "Color" false (boot empty_fs)))
        (of_str "report.pdf")
     = Some (File "")
  /\ exit_status
       (fst (script machine 0 "." "report" None 150 0 0 "Color" false (boot empty_fs)))
     = 0%Z
  /\ fst (main machine (-1) "." "report" None 150 0 0 "Color" false (boot empty_fs))
     = Ret tt.
Proof. repeat split; vm_compute; reflexivity. Qed.

Lemma one_converter_per_page_witness :
  invocations "tesseract"
    (new_events (boot empty_fs)
       (snd (main machine 2 "." "report" None 150 0 0 "Color" false (boot empty_fs))))
  = [ EvRun [ AStr "tesseract";
              APath (mkPath "/" ["tmp"; "tmpq1w2e3"; "page_0.tiff"]);
              APath (mkPath "/" ["tmp"; "tmpq1w2e3"; "page_0"]); AStr "pdf" ] None;
      EvRun [ AStr "tesseract";
              APath (mkPath "/" ["tmp"; "tmpq1w2e3"; "page_1.tiff"]);
              APath (mkPath "/" ["tmp"; "tmpq1w2e3"; "page_1"]); AStr "pdf" ] None ].
Proof.
  apply (proj2 (proj2 (proj2 (proj2 (proj2
           (one_converter_per_page machine (boot empty_fs)
              2 "." "report" None 150 0 0 "Color" false)))))
           eq_refl (fun _ => eq_refl)).
Defined.

(** A file system with an unrelated file in it. *)
Definition home_fs : FS := fs_set (of_str "/home/me/notes.txt") (File "notes") empty_fs.

Lemma confined_programs_confined (d : Path) (w : string -> option string) (t : string)
    (ft : list Event -> option Exn) :
  confined (mkEnv w t (confined_programs d) ft) d.
Proof.
  intros argv f q Hd Hbelow. cbn [proc]. unfold confined_programs.
  destruct (programs argv f) as [out f']. cbn [snd]. rewrite Hbelow.
  destruct (Pathlib.eqb q d) eqn:Heq; [|reflexivity].
  apply StrFacts.eqb_eq in Heq. contradiction.
Qed.


Lemma absent_device_is_passed_as_None_witness :
  invocations "scanimage"
    (new_events (boot empty_fs)
       (snd (main machine 1 "." "report" None 300 5 (-5) "Gray" false (boot empty_fs))))
  = [ EvRun [ AStr "scanimage"; AStr "-d"; AStr "None"; AStr "--resolution"; AStr "300";
              AStr "--brightness"; AStr "-5"; AStr "--contrast"; AStr "5";
              AStr "--mode"; AStr "Gray"; AStr "--format"; AStr "tiff" ]
            (Some (mkPath "/" ["tmp"; "tmpq1w2e3"; "page_0.tiff"])) ].
Proof.
  apply (proj2 (proj2
           (absent_device_is_passed_as_None machine (boot empty_fs)
              1 "." "report" 300 5 (-5) "Gray" false))
           eq_refl (fun _ => eq_refl)).
Defined.

(* ===================================================================== *)
(** ** Further properties of the script *)
(* ===================================================================== *)

(** *** How the process ends *)

Section ExitStatus.
Variable env : Env.
Variables (pages : Z) (output_dir filename : string) (sane_device : option string)
          (sane_resolution sane_contrast sane_brightness : Z) (sane_mode : string)
          (no_ocr : bool).

Lemma look_for_required_commands_result (w : World) :
  look_for_required_commands env w
  = (match missing_commands env with [] => Ret tt | _ => SysExit 1 end,
     mkWorld (fs w) (trace w ++ error_lines env)).
Proof.
  unfold look_for_required_commands, error_lines, missing_commands, required_commands,
    is_missing, bind, shutil_which, logger_error, record, ret, sys_exit.
  cbn [filter fst snd].
  destruct (which env "convert"), (which env "tesseract"),
           (which env "scanimage"), (which env "gs");
    cbn; rewrite <- ?app_assoc; try reflexivity.
  destruct w; cbn; now rewrite app_nil_r.
Qed.

(** [main] has no [sys.exit] of its own. *)
Lemma main_never_exits (w : World) (c : Z) :
  fst (main env pages output_dir filename sane_device
            sane_resolution sane_contrast sane_brightness sane_mode no_ocr w)
  <> SysExit c.
Proof.
  pose proof (main_runs env pages output_dir filename sane_device
                sane_resolution sane_contrast sane_brightness sane_mode no_ocr w) as H.
  unfold main_run in H. intros Ho. rewrite Ho in H.
  destruct (fs w (final_output_path output_dir filename)).
  - destruct H as [H _]. discriminate.
  - exact H.
Qed.

Lemma main_command_exits_zero (w : World) :
  fst (main_command env pages output_dir filename sane_device
                    sane_resolution sane_contrast sane_brightness sane_mode no_ocr w)
  = SysExit 0.
Proof.
  pose proof (main_never_exits w) as Hne.
  unfold main_command, click_standalone, bind, logger_catch.
  destruct (main env pages output_dir filename sane_device
                 sane_resolution sane_contrast sane_brightness sane_mode no_ocr w)
    as [[[]|e|c] w1]; cbn [fst] in *; try reflexivity.
  now contradiction (Hne c).
Qed.

End ExitStatus.


(** *** The temporary directory *)

Definition is_workspace_event (ev : Event) : bool :=
  match ev with
  | EvMkdtemp _ | EvCleanup _ => true
  | _ => false
  end.

Lemma body_has_no_workspace_event
    (pages : Z) (output_dir filename : string) (sane_device : option string)
    (sane_resolution sane_contrast sane_brightness : Z) (sane_mode : string)
    (no_ocr : bool) (d : Path) :
  filter is_workspace_event
    (body_events pages output_dir filename sane_device
                 sane_resolution sane_contrast sane_brightness sane_mode no_ocr d) = [].
Proof.
  rewrite body_events_eq, !filter_app.
  assert (Hs : forall l, filter is_workspace_event
                (flat_map (scan_events sane_device sane_resolution sane_contrast
                             sane_brightness sane_mode d) l) = []).
  { induction l as [|page l IH]; [reflexivity|]. cbn [flat_map]. rewrite filter_app, IH.
    reflexivity. }
  assert (Hc : forall l, filter is_workspace_event
                           (map (convert_event no_ocr d) l) = []).
  { induction l as [|page l IH]; [reflexivity | exact IH]. }
  rewrite Hs, Hc. unfold assemble_events.
  now destruct (Nat.eqb (length (range pages)) 1).
Qed.

Lemma filter_firstn_nil {X} (f : X -> bool) (k : nat) (l : list X) :
  filter f l = [] -> filter f (firstn k l) = [].
Proof.
  intros Hl. destruct (filter_firstn f k l) as (j & Hj).
  now rewrite Hj, Hl, firstn_nil.
Qed.

(** X2. The temporary directory lives exactly as long as the [with] block:
    a run either never makes it, or makes it first, removes it last and
    does neither in between.  Once it has been made, nothing is left at it
    or below it when [main] ends, whether the pipeline returned or raised. *)
Theorem workspace_is_removed
    (env : Env) (w : World)
    (pages : Z) (output_dir filename : string) (sane_device : option string)
    (sane_resolution sane_contrast sane_brightness : Z) (sane_mode : string)
    (no_ocr : bool) :
  let d := of_str (tmp_name env) in
  let r := main env pages output_dir filename sane_device
                sane_resolution sane_contrast sane_brightness sane_mode no_ocr w in
  let l := new_events w (snd r) in
  (filter is_workspace_event l = []
   \/ exists mid, l = [EvMkdtemp (tmp_name env)] ++ mid ++ [EvCleanup (tmp_name env)]
                  /\ filter is_workspace_event mid = [])
  /\ (fs w (final_output_path output_dir filename) = None ->
      fault env (trace w) = None ->
      (exists mid, l = [EvMkdtemp (tmp_name env)] ++ mid ++ [EvCleanup (tmp_name env)])
      /\ forall q, q = d \/ below d q = true -> fs (snd r) q = None).
Proof.
  intros d r l.
  pose proof (main_events env pages output_dir filename sane_device
                sane_resolution sane_contrast sane_brightness sane_mode no_ocr w) as [_ Hev].
  unfold main_of in Hev. fold r l d in Hev.
  split.
  - destruct (fs w (final_output_path output_dir filename)).
    + destruct Hev as (_ & -> & _). now left.
    + destruct Hev as [(k & [[-> _] | ->]) _]; [now left | right].
      eexists. split; [reflexivity|].
      apply filter_firstn_nil, body_has_no_workspace_event.
  - intros Hex Hfault. rewrite Hex in Hev.
    destruct Hev as [(k & [[_ Hf] | Hl]) _]; [contradiction|].
    split; [eexists; exact Hl|].
    intros q Hq. unfold r. rewrite main_stages. unfold bind, path_exists. rewrite Hex.
    unfold with_TemporaryDirectory, syscall. rewrite Hfault.
    destruct (workspace_body _ _ _ _ _ _ _ _ _ _ _ _) as [o w2]. cbn [snd fs].
    unfold fs_rmtree. fold d.
    destruct Hq as [-> | ->]; [now rewrite StrFacts.eqb_refl | now rewrite orb_true_r].
Qed.

Lemma workspace_is_removed_witness :
  fs (snd (main machine_no_stdin 2 "." "report" None 150 0 0 "Color" false (boot empty_fs)))
     (of_str "/tmp/tmpq1w2e3")
  = None
  /\ fs (snd (main machine 2 "." "report" None 150 0 0 "Color" false (boot empty_fs)))
        (of_str "/tmp/tmpq1w2e3/page_1.pdf")
     = None.
Proof.
  split.
  - apply (proj2 (proj2 (workspace_is_removed machine_no_stdin (boot empty_fs)
                           2 "." "report" None 150 0 0 "Color" false) eq_refl eq_refl)).
    now left.
  - apply (proj2 (proj2 (workspace_is_removed machine (boot empty_fs)
                           2 "." "report" None 150 0 0 "Color" false) eq_refl eq_refl)).
    now right.
Defined.

(** *** A run that fails publishes nothing *)

Section Stagewise.
Variable env : Env.
Variables (pages : Z) (sane_device : option string)
          (sane_resolution sane_contrast sane_brightness : Z) (sane_mode : string)
          (no_ocr : bool).
Variables (d other : Path).
Hypothesis programs_confined : confined env d.

Lemma scan_pages_keep (l : list Z) (page_list : list Path) :
  keeps d other
    (for_each l (scan_page env sane_device sane_resolution sane_contrast
                           sane_brightness sane_mode d) page_list).
Proof.
  apply keeps_for_each. intros page acc. unfold scan_page. rewrite join_page_tiff.
  apply keeps_bind; [apply keeps_syscall; intros f; apply same_elsewhere_refl|].
  intros _. apply keeps_bind.
  { apply keeps_syscall. intros f. apply fs_set_elsewhere. right; right.
    apply below_child. }
  intros _. apply keeps_bind;
    [apply keeps_run; [exact programs_confined | apply below_child]|].
  intros _. apply keeps_bind; [intros w; apply same_elsewhere_refl|].
  intros _. apply keeps_ret.
Qed.

Lemma convert_pages_keep (page_list pdf_list : list Path) :
  keeps d other (for_each page_list (convert_page env no_ocr) pdf_list).
Proof.
  apply keeps_for_each. intros page acc. unfold convert_page, path_with_suffix.
  apply keeps_bind; [destruct (with_suffix page ""); [apply keeps_ret | apply keeps_raise]|].
  intros pdf_base. apply keeps_bind;
    [destruct (with_suffix page ".pdf"); [apply keeps_ret | apply keeps_raise]|].
  intros pdf_out. apply keeps_bind; [|intros _; apply keeps_ret].
  destruct (negb no_ocr); apply keeps_run; (exact programs_confined || exact I).
Qed.

Lemma assemble_keeps (pdf_list : list Path) :
  keeps d other (assemble env d pdf_list).
Proof.
  unfold assemble. destruct (Nat.eqb (length pdf_list) 1).
  - unfold index. destruct (nth_error pdf_list 0); [apply keeps_ret | apply keeps_raise].
  - apply keeps_bind; [intros w; apply same_elsewhere_refl|].
    intros _. apply keeps_bind; [apply keeps_run; [exact programs_confined | exact I]|].
    intros _. apply keeps_ret.
Qed.

End Stagewise.

Lemma copyfile_raises (env : Env) (src dst : Path) (w w' : World) (e : Exn) :
  copyfile env src dst w = (Raise e, w') -> w' = w.
Proof.
  unfold copyfile, syscall.
  destruct (fs w src) as [n|]; [|now intros [= _ <-]].
  destruct (Pathlib.eqb src dst); [now intros [= _ <-]|].
  destruct n as [c|]; [|now intros [= _ <-]].
  destruct (fault env (trace w)); [now intros [= _ <-] | discriminate].
Qed.


(** The confined programs of a machine that lost [tesseract]'s output: the
    OCR engine runs and writes nothing. *)
Definition silent_ocr (argv : list string) (f : FS) : string * FS :=
  if String.eqb (hd "" argv) "tesseract" then ("", f)
  else confined_programs (of_str "/tmp/tmpq1w2e3") argv f.

Definition machine_silent_ocr : Env :=
  mkEnv all_installed "/tmp/tmpq1w2e3" silent_ocr no_fault.

Lemma silent_ocr_confined : confined machine_silent_ocr (of_str "/tmp/tmpq1w2e3").
Proof.
  intros argv f q Hd Hbelow. cbn [proc machine_silent_ocr]. unfold silent_ocr.
  destruct (String.eqb (hd "" argv) "tesseract"); [reflexivity|].
  apply (confined_programs_confined (of_str "/tmp/tmpq1w2e3") all_installed
           "/tmp/tmpq1w2e3" no_fault argv f q Hd Hbelow).
Qed.


(** *** The final output path *)

Lemma endswith_inv (s suf : string) :
  endswith s suf = true -> exists a, s = (a ++ suf)%string.
Proof.
  induction s as [|c s IH]; cbn [endswith].
  - destruct (String.eqb "" suf) eqn:He; [|discriminate].
    apply String.eqb_eq in He. subst suf. now exists "".
  - destruct (String.eqb (String c s) suf) eqn:He.
    + apply String.eqb_eq in He. subst suf. now exists "".
    + intros H. destruct (IH H) as (a & ->). now exists (String c a).
Qed.

Lemma normalized_ends (filename : string) :
  exists a, normalized filename = (a ++ ".pdf")%string.
Proof.
  unfold normalized. destruct (endswith filename ".pdf") eqn:He; cbn [negb].
  - now apply endswith_inv.
  - now exists filename.
Qed.

Lemma lstrip_pdf (a : string) :
  lstrip sep (a ++ ".pdf") = (lstrip sep a ++ ".pdf")%string.
Proof.
  induction a as [|c a IH]; [reflexivity|].
  cbn [append lstrip]. destruct (Ascii.eqb c sep); [exact IH | reflexivity].
Qed.

Lemma splitroot_pdf (a : string) :
  exists b, snd (splitroot (a ++ ".pdf")) = (b ++ ".pdf")%string.
Proof.
  destruct a as [|c a]; [now exists ""|].
  unfold splitroot. cbn [append].
  destruct (Ascii.eqb c sep) eqn:Hc; [|now exists (String c a)].
  exists (lstrip sep (String c a)).
  change (String c (a ++ ".pdf")) with (String c a ++ ".pdf")%string.
  rewrite lstrip_pdf.
  now destruct (Nat.eqb _ 2).
Qed.

Lemma split_tail (c : ascii) (b t : string) :
  contains c t = false ->
  exists pre z, split c (b ++ t) = pre ++ [(z ++ t)%string].
Proof.
  intros Ht. induction b as [|a b (pre & z & IH)].
  - exists [], "". cbn [append]. now rewrite split_no_sep.
  - cbn [append split]. rewrite IH.
    destruct (Ascii.eqb a c).
    + now exists ("" :: pre), z.
    + destruct pre as [|p ps]; cbn [app].
      * now exists [], (String a z).
      * now exists (String a p :: ps), z.
Qed.

Lemma keep_pdf (z : string) : keep_comp (z ++ ".pdf") = true.
Proof.
  unfold keep_comp.
  assert (Hlen : String.length (z ++ ".pdf") = String.length z + 4)
    by now rewrite str_length_app.
  assert (H1 : String.eqb (z ++ ".pdf") "" = false).
  { apply String.eqb_neq. intros H. rewrite H in Hlen. simpl in Hlen. lia. }
  assert (H2 : String.eqb (z ++ ".pdf") "." = false).
  { apply String.eqb_neq. intros H. rewrite H in Hlen. simpl in Hlen. lia. }
  now rewrite H1, H2.
Qed.

Lemma comps_of_str_pdf (a : string) :
  exists pre z, comps (of_str (a ++ ".pdf")) = pre ++ [(z ++ ".pdf")%string].
Proof.
  unfold of_str. destruct (splitroot_pdf a) as (b & Hb).
  destruct (splitroot (a ++ ".pdf")) as [r rel]. cbn [snd] in Hb. subst rel.
  destruct (split_tail sep b ".pdf" eq_refl) as (pre & z & Hs).
  cbn [comps]. rewrite Hs, filter_app. cbn [filter]. rewrite keep_pdf.
  now exists (filter keep_comp pre), z.
Qed.

(** X4. Whatever the output directory and the file name given, the last
    component of the path the run publishes to ends in [.pdf]. *)
Theorem final_output_name_ends_in_pdf (output_dir filename : string) :
  endswith (name (final_output_path output_dir filename)) ".pdf" = true.
Proof.
  unfold final_output_path.
  destruct (normalized_ends filename) as (a & ->).
  destruct (comps_of_str_pdf a) as (pre & z & Hc).
  assert (Hname : name (join_path (of_str output_dir) (of_str (a ++ ".pdf")))
                  = (z ++ ".pdf")%string).
  { unfold name, join_path.
    destruct (negb (String.eqb (root (of_str (a ++ ".pdf"))) "")); cbn [comps].
    - rewrite Hc. apply last_last.
    - rewrite Hc, app_assoc. apply last_last. }
  rewrite Hname. apply endswith_app.
Qed.

Lemma root_of_str (c : ascii) (s : string) :
  String.eqb (root (of_str (String c s))) "" = negb (Ascii.eqb c sep).
Proof.
  unfold of_str, splitroot.
  destruct (Ascii.eqb c sep); [|reflexivity].
  now destruct (Nat.eqb _ 2).
Qed.

Lemma startswith_slash (c : ascii) (s : string) :
  startswith (String c s) "/" = Ascii.eqb c sep.
Proof.
  unfold startswith. cbn [String.prefix].
  destruct (ascii_dec "/" c) as [<- | Hne]; [now destruct s|].
  symmetry. apply Ascii.eqb_neq. unfold sep. congruence.
Qed.

(** X5. A file name that starts with a slash is taken as it is and the
    output directory plays no part; any other file name is put under the
    output directory, component after component. *)
Theorem absolute_filename_overrides_output_dir (output_dir filename : string) :
  final_output_path output_dir filename
  = if startswith filename "/" then of_str (normalized filename)
    else mkPath (root (of_str output_dir))
                (comps (of_str output_dir) ++ comps (of_str (normalized filename))).
Proof.
  unfold final_output_path, join_path.
  destruct filename as [|c s]; [reflexivity|].
  rewrite startswith_slash.
  assert (Hn : exists s', normalized (String c s) = String c s').
  { unfold normalized. destruct (endswith (String c s) ".pdf"); cbn [negb append];
      eexists; reflexivity. }
  destruct Hn as (s' & ->). rewrite root_of_str, negb_involutive.
  reflexivity.
Qed.

(** *** The order of the stages *)

Lemma firstn_app_cases {X} (k : nat) (a b : list X) :
  firstn k (a ++ b) = firstn k a \/ exists j, firstn k (a ++ b) = a ++ firstn j b.
Proof.
  destruct (Nat.le_gt_cases k (length a)) as [Hle | Hgt].
  - left. now apply firstn_app_le.
  - right. exists (k - length a).
    replace k with (length a + (k - length a)) at 1 by lia.
    apply firstn_app_plus.
Qed.

Section StageOrder.
Variable env : Env.
Variables (pages : Z) (output_dir filename : string) (sane_device : option string)
          (sane_resolution sane_contrast sane_brightness : Z) (sane_mode : string)
          (no_ocr : bool).

Let d : Path := of_str (tmp_name env).
Let scans : list Event :=
  flat_map (scan_events sane_device sane_resolution sane_contrast sane_brightness
                        sane_mode d) (range pages).
Let conversions : list Event := map (convert_event no_ocr d) (range pages).
Let tool : string := if no_ocr then "convert" else "tesseract".

Lemma tool_is_converter : tool = converter no_ocr.
Proof. unfold tool, converter. now destruct no_ocr. Qed.

Lemma body_by_stage :
  body_events pages output_dir filename sane_device
              sane_resolution sane_contrast sane_brightness sane_mode no_ocr d
  = scans ++ conversions
    ++ assemble_events pages d
    ++ [publish_event pages output_dir filename d].
Proof. apply body_events_eq. Qed.

Lemma no_tool_in_scans : invocations tool scans = [].
Proof.
  unfold scans. rewrite invocations_scan. unfold tool. now destruct no_ocr.
Qed.

Lemma no_scan_after_capture :
  invocations "scanimage"
    (conversions ++ assemble_events pages d ++ [publish_event pages output_dir filename d])
  = [].
Proof.
  unfold invocations. rewrite !filter_app.
  change (filter (invokes "scanimage") ?l) with (invocations "scanimage" l).
  unfold conversions. rewrite invocations_convert, invocations_assemble.
  unfold converter.
  now destruct (negb no_ocr), (Nat.eqb (length (range pages)) 1).
Qed.

Lemma no_merge_before_assembly : invocations "gs" (scans ++ conversions) = [].
Proof.
  unfold invocations. rewrite filter_app.
  change (filter (invokes "gs") ?l) with (invocations "gs" l).
  unfold scans, conversions. rewrite invocations_scan, invocations_convert.
  unfold converter. now destruct (negb no_ocr).
Qed.

Lemma no_tool_after_conversion :
  invocations tool (assemble_events pages d ++ [publish_event pages output_dir filename d])
  = [].
Proof.
  unfold invocations. rewrite filter_app.
  change (filter (invokes tool) ?l) with (invocations tool l).
  rewrite invocations_assemble. unfold tool.
  now destruct no_ocr, (Nat.eqb (length (range pages)) 1).
Qed.

Lemma tool_in_stages : invocations tool (scans ++ conversions) = conversions.
Proof.
  unfold invocations. rewrite filter_app.
  change (filter (invokes tool) ?l) with (invocations tool l).
  rewrite no_tool_in_scans. unfold conversions.
  rewrite invocations_convert, tool_is_converter, String.eqb_refl. reflexivity.
Qed.

Lemma stage_order (k : nat) :
  let l := firstn k (body_events pages output_dir filename sane_device sane_resolution
                       sane_contrast sane_brightness sane_mode no_ocr d) in
  (invocations tool l = []
   \/ invocations "scanimage" l
      = map (scan_run sane_device sane_resolution sane_contrast sane_brightness
                      sane_mode d) (range pages))
  /\ (invocations "gs" l = [] \/ invocations tool l = conversions).
Proof.
  intros l. subst l. rewrite body_by_stage. split.
  - destruct (firstn_app_cases k scans
                (conversions ++ assemble_events pages d
                 ++ [publish_event pages output_dir filename d])) as [-> | (j & ->)].
    + left. apply filter_firstn_nil, no_tool_in_scans.
    + right. unfold invocations. rewrite filter_app.
      change (filter (invokes "scanimage") ?l) with (invocations "scanimage" l).
      unfold invocations at 2. rewrite (filter_firstn_nil _ j _ no_scan_after_capture).
      unfold scans. rewrite invocations_scan. cbn. apply app_nil_r.
  - rewrite (app_assoc scans conversions).
    destruct (firstn_app_cases k (scans ++ conversions)
                (assemble_events pages d
                 ++ [publish_event pages output_dir filename d])) as [-> | (j & ->)].
    + left. apply filter_firstn_nil, no_merge_before_assembly.
    + right. unfold invocations. rewrite filter_app.
      change (filter (invokes tool) ?l) with (invocations tool l).
      unfold invocations at 2. rewrite (filter_firstn_nil _ j _ no_tool_after_conversion).
      rewrite tool_in_stages. apply app_nil_r.
Qed.

End StageOrder.

(** X6. The stages never overlap.  In every run, if a conversion (OCR or
    plain) has been started then every page has been scanned, and if the
    compositor has been started then every page has been converted. *)
Theorem stages_run_one_after_the_other
    (env : Env) (w : World)
    (pages : Z) (output_dir filename : string) (sane_device : option string)
    (sane_resolution sane_contrast sane_brightness : Z) (sane_mode : string)
    (no_ocr : bool) :
  let d := of_str (tmp_name env) in
  let r := main env pages output_dir filename sane_device
                sane_resolution sane_contrast sane_brightness sane_mode no_ocr w in
  let l := new_events w (snd r) in
  let tool := if no_ocr then "convert" else "tesseract" in
  (invocations tool l = []
   \/ invocations "scanimage" l
      = map (scan_run sane_device sane_resolution sane_contrast sane_brightness
                      sane_mode d) (range pages))
  /\ (invocations "gs" l = []
      \/ invocations tool l = map (convert_event no_ocr d) (range pages)).
Proof.
  intros d r l tool.
  pose proof (main_events env pages output_dir filename sane_device
                sane_resolution sane_contrast sane_brightness sane_mode no_ocr w) as [_ Hev].
  unfold main_of in Hev. fold r l d in Hev.
  destruct (fs w (final_output_path output_dir filename)).
  - destruct Hev as (_ & -> & _). split; now left.
  - destruct Hev as [(k & [[-> _] | ->]) _]; [split; now left|].
    rewrite !invocations_framed.
    apply (stage_order env pages output_dir filename sane_device sane_resolution
             sane_contrast sane_brightness sane_mode no_ocr k).
Qed.

(** *** The operator *)

Definition is_prompt (ev : Event) : bool :=
  match ev with
  | EvInput _ => true
  | _ => false
  end.

(** Line 105: the prompt for a page counts pages from one. *)
Definition prompt_for (page : Z) : Event :=
  EvInput ("Press Enter to scan page " ++ str_int (page + 1))%string.

Section Prompts.
Variable env : Env.
Variables (pages : Z) (output_dir filename : string) (sane_device : option string)
          (sane_resolution sane_contrast sane_brightness : Z) (sane_mode : string)
          (no_ocr : bool).

Let d : Path := of_str (tmp_name env).
Let block : Z -> list Event :=
  scan_events sane_device sane_resolution sane_contrast sane_brightness sane_mode d.

Lemma prompts_of_scans (ps : list Z) :
  filter is_prompt (flat_map block ps) = map prompt_for ps.
Proof.
  induction ps as [|p ps IH]; [reflexivity|].
  cbn [flat_map map]. rewrite filter_app, IH. reflexivity.
Qed.

Lemma prompts_after_capture :
  filter is_prompt
    (map (convert_event no_ocr d) (range pages)
     ++ assemble_events pages d ++ [publish_event pages output_dir filename d]) = [].
Proof.
  rewrite !filter_app.
  assert (Hc : forall l, filter is_prompt (map (convert_event no_ocr d) l) = []).
  { induction l as [|p l IH]; [reflexivity | exact IH]. }
  rewrite Hc. unfold assemble_events.
  now destruct (Nat.eqb (length (range pages)) 1).
Qed.

Lemma prompts_of_body :
  filter is_prompt
    (body_events pages output_dir filename sane_device sane_resolution
                 sane_contrast sane_brightness sane_mode no_ocr d)
  = map prompt_for (range pages).
Proof.
  rewrite body_events_eq, filter_app. fold block.
  rewrite prompts_of_scans, prompts_after_capture. apply app_nil_r.
Qed.

Lemma prompts_of_pipeline :
  filter is_prompt (pipeline_events pages sane_device sane_resolution
                      sane_contrast sane_brightness sane_mode no_ocr d)
  = map prompt_for (range pages).
Proof.
  rewrite <- prompts_of_body. unfold body_events.
  rewrite filter_app. cbn. now rewrite app_nil_r.
Qed.

(** Inside the capture loop a scan never runs ahead of its prompt, and at
    most one prompt is waiting for its scan. *)
Lemma scan_block_counts (ps : list Z) (k : nat) :
  let x := firstn k (flat_map block ps) in
  length (invocations "scanimage" x) <= length (filter is_prompt x)
  /\ length (filter is_prompt x) <= S (length (invocations "scanimage" x)).
Proof.
  revert k. induction ps as [|p ps IH]; intros k.
  - cbn. rewrite firstn_nil. cbn. lia.
  - cbn [flat_map]. unfold block at 1 3 5 7. unfold scan_events. cbn [app].
    destruct k as [|[|[|[|k]]]]; try (cbn; lia).
    specialize (IH k). cbn zeta in IH.
    unfold invocations in *.
    cbn [firstn filter is_prompt invokes command scan_argv String.eqb Ascii.eqb
         Bool.eqb length].
    lia.
Qed.

Lemma prompts_framed (l : list Event) :
  filter is_prompt ([EvMkdtemp (tmp_name env)] ++ l ++ [EvCleanup (tmp_name env)])
  = filter is_prompt l.
Proof. rewrite !filter_app. cbn. now rewrite app_nil_r. Qed.

Lemma body_prefix_counts (k : nat) :
  let x := firstn k (body_events pages output_dir filename sane_device sane_resolution
                       sane_contrast sane_brightness sane_mode no_ocr d) in
  length (invocations "scanimage" x) <= length (filter is_prompt x)
  /\ length (filter is_prompt x) <= S (length (invocations "scanimage" x)).
Proof.
  cbn zeta. rewrite body_events_eq. fold block.
  destruct (firstn_app_cases k (flat_map block (range pages))
              (map (convert_event no_ocr d) (range pages)
               ++ assemble_events pages d
               ++ [publish_event pages output_dir filename d])) as [-> | (j & ->)].
  - apply scan_block_counts.
  - pose proof (no_scan_after_capture env pages output_dir filename no_ocr) as Hns.
    fold d in Hns. unfold invocations in Hns.
    unfold invocations. rewrite !filter_app.
    rewrite (filter_firstn_nil _ j _ prompts_after_capture).
    rewrite (filter_firstn_nil _ j _ Hns).
    rewrite prompts_of_scans.
    change (filter (invokes "scanimage") ?l) with (invocations "scanimage" l).
    unfold block. rewrite invocations_scan. cbn [String.eqb Ascii.eqb Bool.eqb].
    rewrite !app_nil_r, !length_map. lia.
Qed.

End Prompts.

(** X7. The operator is asked once per page, in page order and counting
    from one ("Press Enter to scan page 1" is for [page_0.tiff]): the
    prompts of a run are the first few of that list, and all of them when
    the output path is free and no system call fails.  No scan is started
    without its prompt having been answered, and at most one answered
    prompt is still without its scan. *)
Theorem one_prompt_before_each_scan
    (env : Env) (w : World)
    (pages : Z) (output_dir filename : string) (sane_device : option string)
    (sane_resolution sane_contrast sane_brightness : Z) (sane_mode : string)
    (no_ocr : bool) :
  let r := main env pages output_dir filename sane_device
                sane_resolution sane_contrast sane_brightness sane_mode no_ocr w in
  let l := new_events w (snd r) in
  let prompts := filter is_prompt l in
  let asked :=
    map (fun page => EvInput ("Press Enter to scan page " ++ str_int (page + 1))%string)
        (range pages) in
  (exists j, prompts = firstn j asked)
  /\ (fs w (final_output_path output_dir filename) = None ->
      (forall t, fault env t = None) ->
      prompts = asked)
  /\ length (invocations "scanimage" l) <= length prompts
  /\ length prompts <= S (length (invocations "scanimage" l)).
Proof.
  intros r l prompts asked. subst prompts.
  change asked with (map prompt_for (range pages)).
  pose proof (main_events env pages output_dir filename sane_device
                sane_resolution sane_contrast sane_brightness sane_mode no_ocr w) as [_ Hev].
  unfold main_of in Hev. fold r l in Hev.
  destruct (fs w (final_output_path output_dir filename)).
  - destruct Hev as (_ & -> & _). cbn.
    split; [now exists 0|]. split; [discriminate | lia].
  - destruct Hev as ((k & Hk) & _ & Hnf). split; [|split].
    + destruct Hk as [[-> _] | ->]; [now exists 0|].
      rewrite prompts_framed, <- (prompts_of_body env pages output_dir filename sane_device
                                   sane_resolution sane_contrast sane_brightness
                                   sane_mode no_ocr).
      apply filter_firstn.
    + intros _ Hf. destruct (Hnf Hf) as [-> | ->]; rewrite prompts_framed.
      * apply prompts_of_body.
      * apply (prompts_of_pipeline env pages output_dir filename sane_device
                 sane_resolution sane_contrast sane_brightness sane_mode no_ocr).
    + destruct Hk as [[-> _] | ->]; [cbn; lia|].
      rewrite prompts_framed, invocations_framed.
      apply (body_prefix_counts env pages output_dir filename sane_device sane_resolution
               sane_contrast sane_brightness sane_mode no_ocr k).
Qed.

Lemma one_prompt_before_each_scan_witness :
  filter is_prompt
    (new_events (boot empty_fs)
       (snd (main machine 3 "." "report" None 150 0 0 "Color" true (boot empty_fs))))
  = [ EvInput "Press Enter to scan page 1";
      EvInput "Press Enter to scan page 2";
      EvInput "Press Enter to scan page 3" ].
Proof.
  apply (proj1 (proj2
           (one_prompt_before_each_scan machine (boot empty_fs)
              3 "." "report" None 150 0 0 "Color" true))
           eq_refl (fun _ => eq_refl)).
Defined.

(** *** No pages *)

(** X8. With a page count of zero or less, a free output path and no
    failing system call, the compositor is still started, once, with the
    fixed options and the output file but without a single input, and what
    the run then tries to publish is that [final.pdf]. *)
Theorem no_pages_merges_nothing
    (env : Env) (w : World)
    (pages : Z) (output_dir filename : string) (sane_device : option string)
    (sane_resolution sane_contrast sane_brightness : Z) (sane_mode : string)
    (no_ocr : bool) :
  (pages <= 0)%Z ->
  fs w (final_output_path output_dir filename) = None ->
  (forall t, fault env t = None) ->
  let d := of_str (tmp_name env) in
  let r := main env pages output_dir filename sane_device
                sane_resolution sane_contrast sane_brightness sane_mode no_ocr w in
  let l := new_events w (snd r) in
  invocations "gs" l
  = [EvRun [ AStr "gs";
             AStr "-sDEVICE=pdfwrite";
             AStr "-dCompatibilityLevel=1.4";
             AStr "-dPDFSETTINGS=/default";
             AStr "-dNOPAUSE";
             AStr "-dQUIET";
             AStr "-dBATCH";
             AStr "-dDetectDuplicateImages";
             AStr "-dCompressFonts=true";
             AStr "-r150";
             AStr ("-sOutputFile=" ++ str (child d "final.pdf"))%string ] None]
  /\ final_pdf_path pages d = child d "final.pdf"
  /\ (fst r = Ret tt ->
      filter is_copy l
      = [EvCopy (child d "final.pdf") (final_output_path output_dir filename)]).
Proof.
  intros Hpages Hex Hnf d r l.
  assert (Hrange : range pages = []).
  { unfold range. now replace (Z.to_nat pages) with 0 by lia. }
  assert (Hfinal : final_pdf_path pages d = child d "final.pdf").
  { unfold final_pdf_path. now rewrite Hrange. }
  split; [|split; [exact Hfinal|]].
  - destruct (invocations_main env pages output_dir filename sane_device
                sane_resolution sane_contrast sane_brightness sane_mode no_ocr
                "gs" w) as (_ & _ & Hall).
    unfold main_of in Hall. fold r l d in Hall. rewrite (Hall Hex Hnf).
    rewrite merges_of_body. unfold merge_argv. rewrite Hrange. reflexivity.
  - intros Ho.
    pose proof (main_events env pages output_dir filename sane_device
                  sane_resolution sane_contrast sane_brightness sane_mode no_ocr w)
      as [_ Hev].
    unfold main_of in Hev. fold r l d in Hev. rewrite Hex in Hev.
    destruct Hev as (_ & Hret & _). rewrite (Hret Ho).
    rewrite !filter_app. cbn [filter is_copy]. rewrite app_nil_r.
    rewrite copies_of_body. now rewrite Hfinal.
Qed.

Lemma no_pages_merges_nothing_witness :
  invocations "gs"
    (new_events (boot empty_fs)
       (snd (main machine 0 "." "report" None 150 0 0 "Color" false (boot empty_fs))))
  = [EvRun [ AStr "gs"; AStr "-sDEVICE=pdfwrite"; AStr "-dCompatibilityLevel=1.4";
             AStr "-dPDFSETTINGS=/default"; AStr "-dNOPAUSE"; AStr "-dQUIET";
             AStr "-dBATCH"; AStr "-dDetectDuplicateImages"; AStr "-dCompressFonts=true";
             AStr "-r150"; AStr "-sOutputFile=/tmp/tmpq1w2e3/final.pdf" ] None].
Proof.
  apply (proj1 (no_pages_merges_nothing machine (boot empty_fs)
                  0 "." "report" None 150 0 0 "Color" false
                  ltac:(lia) eq_refl (fun _ => eq_refl))).
Defined.

(** *** What the programs are told *)

Lemma str_app_assoc (a b c : string) : ((a ++ b) ++ c = a ++ (b ++ c))%string.
Proof. induction a as [|x a IH]; cbn; [reflexivity | now rewrite IH]. Qed.

Lemma join_snoc (cs : list string) (f t : string) :
  join "/" (cs ++ [(f ++ t)%string]) = (join "/" (cs ++ [f]) ++ t)%string.
Proof.
  induction cs as [|c cs IH]; [reflexivity|].
  cbn [app join].
  destruct (cs ++ [(f ++ t)%string]) as [|x xs] eqn:E1;
    [apply app_eq_nil in E1 as [_ E1]; discriminate|].
  destruct (cs ++ [f]) as [|y ys] eqn:E2;
    [apply app_eq_nil in E2 as [_ E2]; discriminate|].
  rewrite IH. now rewrite !str_app_assoc.
Qed.

Lemma str_child (d : Path) (file : string) :
  str (child d file) = (root d ++ join "/" (comps d ++ [file]))%string.
Proof.
  unfold str, child. cbn [root comps].
  destruct (root d); [|reflexivity].
  destruct (comps d ++ [file]) eqn:E; [|reflexivity].
  apply app_eq_nil in E as [_ E]. discriminate.
Qed.

Lemma str_child_ext (d : Path) (stem ext : string) :
  str (child d (stem ++ ext)) = (str (child d stem) ++ ext)%string.
Proof. now rewrite !str_child, join_snoc, str_app_assoc. Qed.


(** *** Why a run fails *)

Section Failure.
Variable env : Env.
Hypothesis no_fault : forall t, fault env t = None.

(** Without failing system calls, a computation that makes no copy
    returns. *)
Lemma emits_returns {A} (m : M A) (l : list Event) (a : A) (w : World) :
  emits env m l a ->
  (forall src dst, ~ In (EvCopy src dst) l) ->
  exists w', m w = (Ret a, w').
Proof.
  intros Hm Hl. specialize (Hm w).
  destruct (m w) as [[a'|e|c] w']; [| |contradiction].
  - destruct Hm as [-> _]. now exists w'.
  - destruct Hm as (k & _ & _ & [Hf | (src & dst & Hnth)]).
    + now rewrite no_fault in Hf.
    + apply nth_error_In in Hnth. now apply Hl in Hnth.
Qed.

Variables (pages : Z) (output_dir filename : string) (sane_device : option string)
          (sane_resolution sane_contrast sane_brightness : Z) (sane_mode : string)
          (no_ocr : bool).

Let d : Path := of_str (tmp_name env).

Lemma stage_has_no_copy (src dst : Path) :
  ~ In (EvCopy src dst)
       (flat_map (scan_events sane_device sane_resolution sane_contrast sane_brightness
                              sane_mode d) (range pages))
  /\ ~ In (EvCopy src dst) (map (convert_event no_ocr d) (range pages))
  /\ ~ In (EvCopy src dst) (assemble_events pages d).
Proof.
  pose proof (pipeline_has_no_copy pages sane_device sane_resolution sane_contrast
                sane_brightness sane_mode no_ocr d src dst) as H.
  unfold pipeline_events in H. rewrite !in_app_iff in H. tauto.
Qed.

(** The pipeline reaches the copy. *)
Lemma workspace_body_reaches_copy (w1 : World) :
  exists wc,
    workspace_body env pages output_dir filename sane_device
                   sane_resolution sane_contrast sane_brightness sane_mode no_ocr
                   (tmp_name env) w1
    = copyfile env (final_pdf_path pages d) (final_output_path output_dir filename) wc.
Proof.
  unfold workspace_body. fold d. unfold bind.
  destruct (emits_returns _ _ _ w1
              (scan_pages_emits env sane_device sane_resolution sane_contrast
                 sane_brightness sane_mode d (range pages) [])
              (fun s t => proj1 (stage_has_no_copy s t))) as (wa & ->).
  cbn [app].
  destruct (emits_returns _ _ _ wa
              (convert_pages_emits env no_ocr d (range pages) [])
              (fun s t => proj1 (proj2 (stage_has_no_copy s t)))) as (wb & ->).
  cbn [app].
  destruct (emits_returns _ _ _ wb
              (assemble_emits env pages d)
              (fun s t => proj2 (proj2 (stage_has_no_copy s t)))) as (wc & ->).
  now exists wc.
Qed.

End Failure.



(** *** The check and the pipeline agree *)

Lemma body_commands
    (pages : Z) (output_dir filename : string) (sane_device : option string)
    (sane_resolution sane_contrast sane_brightness : Z) (sane_mode : string)
    (no_ocr : bool) (d : Path) (ev : Event) (c : string) :
  In ev (body_events pages output_dir filename sane_device
                     sane_resolution sane_contrast sane_brightness sane_mode no_ocr d) ->
  command ev = Some c ->
  In c (map fst required_commands).
Proof.
  rewrite body_events_eq. intros Hin Hc.
  apply in_app_iff in Hin as [Hin | Hin].
  { apply in_flat_map in Hin as (page & _ & Hin). unfold scan_events in Hin.
    repeat (destruct Hin as [<- | Hin]; [try discriminate|]); [|contradiction].
    injection Hc as <-. cbn. tauto. }
  apply in_app_iff in Hin as [Hin | Hin].
  { apply in_map_iff in Hin as (page & <- & _). rewrite command_convert in Hc.
    injection Hc as <-. unfold converter. destruct (negb no_ocr); cbn; tauto. }
  apply in_app_iff in Hin as [Hin | Hin].
  { unfold assemble_events in Hin.
    destruct (Nat.eqb (length (range pages)) 1); [contradiction|].
    destruct Hin as [<- | [<- | []]]; [discriminate|].
    injection Hc as <-. cbn. tauto. }
  destruct Hin as [<- | []]. discriminate.
Qed.

Lemma main_commands
    (env : Env) (w : World)
    (pages : Z) (output_dir filename : string) (sane_device : option string)
    (sane_resolution sane_contrast sane_brightness : Z) (sane_mode : string)
    (no_ocr : bool) (ev : Event) (c : string) :
  In ev (new_events w
           (snd (main env pages output_dir filename sane_device
                      sane_resolution sane_contrast sane_brightness sane_mode no_ocr w))) ->
  command ev = Some c ->
  In c (map fst required_commands).
Proof.
  pose proof (main_events env pages output_dir filename sane_device
                sane_resolution sane_contrast sane_brightness sane_mode no_ocr w) as [_ Hev].
  unfold main_of in Hev. intros Hin Hc.
  destruct (fs w (final_output_path output_dir filename)).
  - destruct Hev as (_ & Hl & _). rewrite Hl in Hin.
    destruct Hin as [<- | []]. discriminate.
  - destruct Hev as [(k & [[Hl _] | Hl]) _]; rewrite Hl in Hin; [contradiction|].
    cbn [app] in Hin. destruct Hin as [<- | Hin]; [discriminate|].
    apply in_app_iff in Hin. destruct Hin as [Hin | [<- | []]]; [|discriminate].
    apply firstn_In in Hin. now apply (body_commands _ _ _ _ _ _ _ _ _ _ ev c Hin).
Qed.

Lemma found_when_none_missing (env : Env) (c : string) :
  missing_commands env = [] -> In c (map fst required_commands) -> which env c <> None.
Proof.
  unfold missing_commands, required_commands, is_missing. cbn [filter map fst].
  intros Hm Hc Hnone.
  destruct Hc as [<- | [<- | [<- | [<- | []]]]]; rewrite Hnone in Hm;
    repeat (match type of Hm with
            | context [match which env ?x with _ => _ end] => destruct (which env x)
            end); discriminate.
Qed.

(** X11. The script never starts a program the check at start-up did not
    find: every external program started in a run of the whole script is
    one of convert, tesseract, scanimage and gs, and [shutil.which] had
    resolved it. *)
Theorem script_starts_only_found_programs
    (env : Env) (w : World)
    (pages : Z) (output_dir filename : string) (sane_device : option string)
    (sane_resolution sane_contrast sane_brightness : Z) (sane_mode : string)
    (no_ocr : bool) (ev : Event) (c : string) :
  In ev (new_events w
           (snd (script env pages output_dir filename sane_device
                        sane_resolution sane_contrast sane_brightness sane_mode no_ocr w))) ->
  command ev = Some c ->
  In c ["convert"; "tesseract"; "scanimage"; "gs"] /\ which env c <> None.
Proof.
  unfold script, bind. rewrite look_for_required_commands_result.
  destruct (missing_commands env) as [|m ms] eqn:Hm.
  - assert (Hnone : error_lines env = []) by (unfold error_lines; now rewrite Hm).
    rewrite Hnone. set (w0 := mkWorld (fs w) (trace w ++ [])).
    assert (Hw0 : trace w0 = trace w) by (subst w0; cbn; apply app_nil_r).
    pose proof (main_events env pages output_dir filename sane_device
                  sane_resolution sane_contrast sane_brightness sane_mode no_ocr w0)
      as [Htrace _].
    pose proof (main_commands env w0 pages output_dir filename sane_device
                  sane_resolution sane_contrast sane_brightness sane_mode no_ocr) as Hcmd.
    unfold main_of in Htrace. rewrite Hw0 in Htrace.
    unfold main_command, click_standalone, bind, logger_catch, sys_exit.
    destruct (main env pages output_dir filename sane_device sane_resolution
                   sane_contrast sane_brightness sane_mode no_ocr w0)
      as [[[]|e|x] w1]; cbn [fst snd record trace] in *; intros Hin Hc.
    + rewrite (new_events_app _ _ _ Htrace) in Hin.
      split; [apply (Hcmd ev c Hin Hc)|].
      apply found_when_none_missing; [exact Hm | apply (Hcmd ev c Hin Hc)].
    + rewrite (new_events_app w _ (new_events w0 w1 ++ [EvLogException e])) in Hin
        by (unfold record; cbn [trace]; rewrite Htrace; now rewrite app_assoc).
      apply in_app_iff in Hin. destruct Hin as [Hin | [<- | []]]; [|discriminate].
      split; [apply (Hcmd ev c Hin Hc)|].
      apply found_when_none_missing; [exact Hm | apply (Hcmd ev c Hin Hc)].
    + rewrite (new_events_app _ _ _ Htrace) in Hin.
      split; [apply (Hcmd ev c Hin Hc)|].
      apply found_when_none_missing; [exact Hm | apply (Hcmd ev c Hin Hc)].
  - cbn [snd]. rewrite (new_events_app w _ (error_lines env)) by reflexivity.
    unfold error_lines. intros Hin Hc.
    apply in_map_iff in Hin as (x & <- & _). discriminate.
Qed.

Lemma script_starts_only_found_programs_witness :
  In "tesseract" ["convert"; "tesseract"; "scanimage"; "gs"]
  /\ which machine "tesseract" <> None.
Proof.
  apply (script_starts_only_found_programs machine (boot empty_fs)
           1 "." "report" None 150 0 0 "Color" false
           (EvRun [ AStr "tesseract";
                    APath (mkPath "/" ["tmp"; "tmpq1w2e3"; "page_0.tiff"]);
                    APath (mkPath "/" ["tmp"; "tmpq1w2e3"; "page_0"]); AStr "pdf" ] None)
           "tesseract").
  - vm_compute. tauto.
  - reflexivity.
Defined.
